(** * The VFS dispatch layer of Tilck

    A shallow embedding of the dispatch functions [vfs_open], [vfs_close],
    [vfs_dup], [vfs_read], [vfs_write], [vfs_seek], [vfs_ioctl],
    [vfs_fcntl], [vfs_mkdir], [vfs_rmdir], [vfs_unlink] and
    [vfs_get_new_device_id], and the properties the specification states
    about them.

    The C functions run in a state-and-failure monad over a [world]: the
    filesystem objects, the handles, the drivers' private memory, the
    device-identifier counter and a log of the calls made to the external
    collaborators (mount registry, reference counting, locks, resolver,
    drivers).  A failed [ASSERT] or the dereference of a dangling pointer
    has no result ([None]). *)

From Stdlib Require Import ZArith Lia Ascii String.
From stdpp Require Import gmap strings list.

Local Open Scope Z_scope.

(** ** Constants of the system headers *)

(** The values of the [O_*], [FD_*], [SEEK_*], [VFS_FS_RW] and [E*] macros
    come from headers that are not part of the sources; the functions are
    written over any choice of them. *)
Class Abi := {
  O_WRONLY : Z;
  O_RDWR : Z;
  O_ASYNC : Z;
  O_TMPFILE : Z;
  O_CLOEXEC : Z;
  FD_CLOEXEC : Z;
  SEEK_SET : Z;
  SEEK_CUR : Z;
  SEEK_END : Z;
  VFS_FS_RW : Z;
  EPERM : Z;
  ENOENT : Z;
  EBADF : Z;
  EINVAL : Z;
  ENOTTY : Z;
  ESPIPE : Z;
  EROFS : Z;
  EOPNOTSUPP : Z;
  (** error numbers are positive, so that a negated one is never the
      success status 0 *)
  errno_pos :
    Forall (fun e => 0 < e)
      [EPERM; ENOENT; EBADF; EINVAL; ENOTTY; ESPIPE; EROFS; EOPNOTSUPP]
}.

(** The values of the Linux i386 ABI, which the kernel implements. *)
Definition linux_i386 : Abi := {|
  O_WRONLY := 1;
  O_RDWR := 2;
  O_ASYNC := 0x2000;
  O_TMPFILE := 0x410000;
  O_CLOEXEC := 0x80000;
  FD_CLOEXEC := 1;
  SEEK_SET := 0;
  SEEK_CUR := 1;
  SEEK_END := 2;
  VFS_FS_RW := 1;
  EPERM := 1;
  ENOENT := 2;
  EBADF := 9;
  EINVAL := 22;
  ENOTTY := 25;
  ESPIPE := 29;
  EROFS := 30;
  EOPNOTSUPP := 95;
  errno_pos := ltac:(repeat constructor)
|}.

(** ** Data model *)

(** Pointers are addresses; [NULL] is address 0. *)
Definition fs_handle := nat.
Definition fs_ptr := nat.
Definition NULL : nat := 0%nat.

(** [filesystem]: the fields of a mounted filesystem the dispatch layer
    reads or writes.  [fsops] points to the driver's operation table. *)
Record filesystem := mk_filesystem {
  flags : Z;
  fsops : nat;
  ref_count : Z
}.

(** [fs_handle_base]: the header every driver handle starts with. *)
Record fs_handle_base := mk_fs_handle_base {
  fs : fs_ptr;
  fops : nat;
  fd_flags : Z;
  fl_flags : Z
}.

(** What a driver or the resolver may read and write: its private state and
    the handles. *)
Record drv_mem (drv_state : Type) := mk_drv_mem {
  dstate : drv_state;
  hbs : gmap nat fs_handle_base
}.
Arguments mk_drv_mem {drv_state} _ _.
Arguments dstate {drv_state} _.
Arguments hbs {drv_state} _.

(** A driver entry point: a function of the driver-visible memory. *)
Definition drv (drv_state A : Type) : Type :=
  drv_mem drv_state -> A * drv_mem drv_state.

(** [fs_ops]: the per-filesystem operation table.  [mkdir], [rmdir] and
    [unlink] may be null.  [open] and [dup] return the status and what they
    stored through their out-parameter ([None]: left unwritten). *)
Record fs_ops (drv_state vfs_path : Type) := mk_fs_ops {
  open : vfs_path -> Z -> Z -> drv drv_state (Z * option fs_handle);
  close : fs_handle -> drv drv_state unit;
  dup : fs_handle -> drv drv_state (Z * option fs_handle);
  mkdir : option (vfs_path -> Z -> drv drv_state Z);
  rmdir : option (vfs_path -> drv drv_state Z);
  unlink : option (vfs_path -> drv drv_state Z)
}.
Arguments mk_fs_ops {drv_state vfs_path} _ _ _ _ _ _.
Arguments open {drv_state vfs_path} _.
Arguments close {drv_state vfs_path} _.
Arguments dup {drv_state vfs_path} _.
Arguments mkdir {drv_state vfs_path} _.
Arguments rmdir {drv_state vfs_path} _.
Arguments unlink {drv_state vfs_path} _.

(** [file_ops]: the per-handle operation table; every entry may be null.
    Buffers and [argp] are user addresses. *)
Record file_ops (drv_state : Type) := mk_file_ops {
  read : option (fs_handle -> nat -> Z -> drv drv_state Z);
  write : option (fs_handle -> nat -> Z -> drv drv_state Z);
  seek : option (fs_handle -> Z -> Z -> drv drv_state Z);
  ioctl : option (fs_handle -> Z -> nat -> drv drv_state Z);
  fcntl : option (fs_handle -> Z -> Z -> drv drv_state Z)
}.
Arguments mk_file_ops {drv_state} _ _ _ _ _.
Arguments read {drv_state} _.
Arguments write {drv_state} _.
Arguments seek {drv_state} _.
Arguments ioctl {drv_state} _.
Arguments fcntl {drv_state} _.

(** The external collaborators of the dispatch layer: the drivers' state and
    operation tables (read-only code memory, addressed by number), the mount
    registry and the resolver. *)
Class Kernel := {
  drv_state : Type;
  vfs_path : Type;
  fs_ops_at : nat -> fs_ops drv_state vfs_path;
  file_ops_at : nat -> file_ops drv_state;
  (** the mount whose prefix matches an absolute path, and the rest of the
      path *)
  mountpoint_of : string -> option (fs_ptr * string);
  (** the resolver's answer for a filesystem and a path relative to it *)
  resolve : fs_ptr -> string -> drv drv_state (Z * vfs_path);
  (** [off_t] of an [s64] *)
  to_off_t : Z -> Z
}.

Inductive fs_op := OpOpen | OpClose | OpDup | OpMkdir | OpRmdir | OpUnlink.
Inductive file_op := OpRead | OpWrite | OpSeek | OpIoctl | OpFcntl.

(** The calls the dispatch layer makes to its collaborators. *)
Inductive event :=
| EvLookup (path : string)
| EvRetain (f : fs_ptr)
| EvRelease (f : fs_ptr)
| EvFsExLock (f : fs_ptr)
| EvFsExUnlock (f : fs_ptr)
| EvResolve (f : fs_ptr) (fs_path : string)
| EvFsOp (op : fs_op) (f : fs_ptr)
| EvShLock (h : fs_handle)
| EvShUnlock (h : fs_handle)
| EvExLock (h : fs_handle)
| EvExUnlock (h : fs_handle)
| EvFileOp (op : file_op) (h : fs_handle)
| EvUnmap (h : fs_handle).

Global Instance fs_op_eq_dec : EqDecision fs_op.
Proof. solve_decision. Defined.
Global Instance file_op_eq_dec : EqDecision file_op.
Proof. solve_decision. Defined.
Global Instance event_eq_dec : EqDecision event.
Proof. solve_decision. Defined.

Section VFS.
Context {abi : Abi} {K : Kernel}.

Record world := mk_world {
  preemption_enabled : bool;
  fss : gmap nat filesystem;
  dmem : drv_mem drv_state;
  next_device_id : Z;
  trace : list event
}.

(** ** The monad of the dispatch functions *)

Definition M (A : Type) : Type := world -> option (A * world).

Definition ret {A} (x : A) : M A := fun w => Some (x, w).

Definition bind {A B} (m : M A) (k : A -> M B) : M B :=
  fun w => match m w with
           | Some (x, w') => k x w'
           | None => None
           end.

Definition panic {A} : M A := fun _ => None.

End VFS.

Declare Scope vfs_scope.
Delimit Scope vfs_scope with vfs.
Notation "'let*' x ':=' m 'in' k" := (bind m (fun x => k))
  (at level 10, x pattern, m at level 100, k at level 200) : vfs_scope.
Notation "m ';;' k" := (bind m (fun _ => k))
  (at level 100, k at level 200, right associativity) : vfs_scope.
Local Open Scope vfs_scope.

Section Dispatch.
Context {abi : Abi} {K : Kernel}.

(** ** Memory accesses *)

Definition with_fss (w : world) (x : gmap nat filesystem) : world :=
  mk_world (preemption_enabled w) x (dmem w) (next_device_id w) (trace w).

Definition with_dmem (w : world) (x : drv_mem drv_state) : world :=
  mk_world (preemption_enabled w) (fss w) x (next_device_id w) (trace w).

Definition with_next_device_id (w : world) (x : Z) : world :=
  mk_world (preemption_enabled w) (fss w) (dmem w) x (trace w).

Definition with_trace (w : world) (x : list event) : world :=
  mk_world (preemption_enabled w) (fss w) (dmem w) (next_device_id w) x.

Definition with_hbs (m : drv_mem drv_state) (x : gmap nat fs_handle_base)
  : drv_mem drv_state :=
  mk_drv_mem (dstate m) x.

(** C truth of an integer. *)
Definition nz (x : Z) : bool := negb (x =? 0).

Definition ASSERT (b : bool) : M unit := if b then ret tt else panic.

Definition NO_TEST_ASSERT (p : world -> bool) : M unit :=
  fun w => if p w then Some (tt, w) else None.

Definition is_preemption_enabled (w : world) : bool := preemption_enabled w.

Definition log (e : event) : M unit :=
  fun w => Some (tt, with_trace w (trace w ++ [e])).

(** Reading [*f] for a [filesystem *f]. *)
Definition load_fs (f : fs_ptr) : M filesystem :=
  fun w => match fss w !! f with
           | Some x => Some (x, w)
           | None => None
           end.

Definition store_fs (f : fs_ptr) (x : filesystem) : M unit :=
  fun w => Some (tt, with_fss w (<[f := x]> (fss w))).

(** Reading [*(fs_handle_base * )h]. *)
Definition load_hb (h : fs_handle) : M fs_handle_base :=
  fun w => match hbs (dmem w) !! h with
           | Some x => Some (x, w)
           | None => None
           end.

Definition store_hb (h : fs_handle) (x : fs_handle_base) : M unit :=
  fun w => Some (tt, with_dmem w (with_hbs (dmem w) (<[h := x]> (hbs (dmem w))))).

(** Reading an out-parameter: garbage when nothing was stored through it. *)
Definition deref {A} (out : option A) : M A :=
  match out with
  | Some x => ret x
  | None => panic
  end.

(** Calling into a driver or the resolver, logged as [e]. *)
Definition call {A} (e : event) (f : drv drv_state A) : M A :=
  log e ;;
  fun w => let (x, m) := f (dmem w) in Some (x, with_dmem w m).

(** ** Collaborators whose code is outside the sources *)

(** Modelled from the spec: [retain_obj] on a filesystem, of the reference
    counting helpers: "retain(fs) increments the reference count". *)
Definition retain_obj (f : fs_ptr) : M unit :=
  let* x := load_fs f in
  store_fs f (mk_filesystem (flags x) (fsops x) (ref_count x + 1)) ;;
  log (EvRetain f).

(** Modelled from the spec: [release_obj] on a filesystem: "release(fs)
    decrements it". *)
Definition release_obj (f : fs_ptr) : M unit :=
  let* x := load_fs f in
  store_fs f (mk_filesystem (flags x) (fsops x) (ref_count x - 1)) ;;
  log (EvRelease f).

Definition get_ref_count (f : fs_ptr) : M Z :=
  let* x := load_fs f in ret (ref_count x).

(** Modelled from the spec: [get_retained_fs_at] of the mount registry:
    "lookup_and_retain(absolute_path) -> (filesystem_handle,
    remaining_relative_path) | NotFound, where a successful call increments
    the filesystem's reference count". *)
Definition get_retained_fs_at (path : string) : M (option (fs_ptr * string)) :=
  log (EvLookup path) ;;
  match mountpoint_of path with
  | Some (f, fs_path) => retain_obj f ;; ret (Some (f, fs_path))
  | None => ret None
  end.

(** Modelled from the spec: [vfs_resolve], the resolver: "resolve(filesystem,
    relative_path) -> ResolvedPath | error". *)
Definition vfs_resolve (f : fs_ptr) (fs_path : string) : M (Z * vfs_path) :=
  call (EvResolve f fs_path) (resolve f fs_path).

(** Modelled from the spec: the lock functions of vfs_locking.c.h.  Within
    one call they are visible as the order of acquire and release around
    the driver call. *)
Definition vfs_fs_exlock (f : fs_ptr) : M unit := log (EvFsExLock f).
Definition vfs_fs_exunlock (f : fs_ptr) : M unit := log (EvFsExUnlock f).
Definition vfs_shlock (h : fs_handle) : M unit := log (EvShLock h).
Definition vfs_shunlock (h : fs_handle) : M unit := log (EvShUnlock h).
Definition vfs_exlock (h : fs_handle) : M unit := log (EvExLock h).
Definition vfs_exunlock (h : fs_handle) : M unit := log (EvExUnlock h).

(** Modelled from the spec: [remove_all_mappings_of_handle] of the process
    layer: close "detaches any external mappings of the handle". *)
Definition remove_all_mappings_of_handle (h : fs_handle) : M unit :=
  log (EvUnmap h).

(** [*path == '/'] *)
Definition is_absolute (path : string) : bool :=
  match path with
  | String c _ => bool_decide (c = "/"%char)
  | EmptyString => false
  end.

(** ** Main VFS functions *)

(** [vfs_open] returns its status and what it left in [*out]. *)
Definition vfs_open (path : string) (flags mode : Z)
  : M (Z * option fs_handle) :=
  NO_TEST_ASSERT is_preemption_enabled ;;
  ASSERT (is_absolute path) ;;
  if nz (Z.land flags O_ASYNC) then ret (- EINVAL, None)
  else if Z.land flags O_TMPFILE =? O_TMPFILE then ret (- EOPNOTSUPP, None)
  else
    let* r := get_retained_fs_at path in
    match r with
    | None => ret (- ENOENT, None)
    | Some (f, fs_path) =>
      vfs_fs_exlock f ;;
      let* (rc, p) := vfs_resolve f fs_path in
      let* (rc, out) :=
        (if rc =? 0 then
           let* x := load_fs f in
           call (EvFsOp OpOpen f) (open (fs_ops_at (fsops x)) p flags mode)
         else ret (rc, None)) in
      vfs_fs_exunlock f ;;
      (if rc =? 0 then
         let* h := deref out in
         let* hb := load_hb h in
         store_hb h (mk_fs_handle_base (fs hb) (fops hb) (fd_flags hb) flags) ;;
         (if nz (Z.land flags O_CLOEXEC) then
            let* hb := load_hb h in
            store_hb h (mk_fs_handle_base (fs hb) (fops hb)
                          (Z.lor (fd_flags hb) FD_CLOEXEC) (fl_flags hb))
          else ret tt)
       else release_obj f) ;;
      ret (rc, out)
    end.

Definition vfs_close (h : fs_handle) : M unit :=
  ASSERT (negb (h =? NULL)%nat) ;;
  let* hb := load_hb h in
  let f := fs hb in
  remove_all_mappings_of_handle h ;;
  let* x := load_fs f in
  call (EvFsOp OpClose f) (close (fs_ops_at (fsops x)) h) ;;
  release_obj f ;;
  let* n := get_ref_count f in
  ASSERT (0 <? n).

(** [vfs_dup] returns its status and what it left in [*dup_h]. *)
Definition vfs_dup (h : fs_handle) : M (Z * option fs_handle) :=
  ASSERT (negb (h =? NULL)%nat) ;;
  if (h =? NULL)%nat then ret (- EBADF, None)
  else
    let* hb := load_hb h in
    let* x := load_fs (fs hb) in
    let* (rc, dup_h) := call (EvFsOp OpDup (fs hb)) (dup (fs_ops_at (fsops x)) h) in
    if nz rc then ret (rc, dup_h)
    else
      let* d := deref dup_h in
      let* db := load_hb d in
      store_hb d (mk_fs_handle_base (fs db) (fops db) 0 (fl_flags db)) ;;
      let* hb := load_hb h in
      retain_obj (fs hb) ;;
      ASSERT (negb (d =? NULL)%nat) ;;
      ret (0, dup_h).

Definition vfs_read (h : fs_handle) (buf : nat) (buf_size : Z) : M Z :=
  NO_TEST_ASSERT is_preemption_enabled ;;
  ASSERT (negb (h =? NULL)%nat) ;;
  let* hb := load_hb h in
  match read (file_ops_at (fops hb)) with
  | None => ret (- EBADF)
  | Some drv_read =>
    if nz (Z.land (fl_flags hb) O_WRONLY) && negb (nz (Z.land (fl_flags hb) O_RDWR))
    then ret (- EBADF)
    else
      vfs_shlock h ;;
      let* r := call (EvFileOp OpRead h) (drv_read h buf buf_size) in
      vfs_shunlock h ;;
      ret r
  end.

Definition vfs_write (h : fs_handle) (buf : nat) (buf_size : Z) : M Z :=
  NO_TEST_ASSERT is_preemption_enabled ;;
  ASSERT (negb (h =? NULL)%nat) ;;
  let* hb := load_hb h in
  match write (file_ops_at (fops hb)) with
  | None => ret (- EBADF)
  | Some drv_write =>
    if negb (nz (Z.land (fl_flags hb) (Z.lor O_WRONLY O_RDWR)))
    then ret (- EBADF)
    else
      vfs_exlock h ;;
      let* r := call (EvFileOp OpWrite h) (drv_write h buf buf_size) in
      vfs_exunlock h ;;
      ret r
  end.

Definition vfs_seek (h : fs_handle) (off whence : Z) : M Z :=
  NO_TEST_ASSERT is_preemption_enabled ;;
  ASSERT (negb (h =? NULL)%nat) ;;
  if negb (whence =? SEEK_SET) && negb (whence =? SEEK_CUR)
     && negb (whence =? SEEK_END)
  then ret (- EINVAL)
  else
    let* hb := load_hb h in
    match seek (file_ops_at (fops hb)) with
    | None => ret (- ESPIPE)
    | Some drv_seek =>
      vfs_shlock h ;;
      let* r := call (EvFileOp OpSeek h) (drv_seek h (to_off_t off) whence) in
      vfs_shunlock h ;;
      ret r
    end.

Definition vfs_ioctl (h : fs_handle) (request : Z) (argp : nat) : M Z :=
  NO_TEST_ASSERT is_preemption_enabled ;;
  ASSERT (negb (h =? NULL)%nat) ;;
  let* hb := load_hb h in
  match ioctl (file_ops_at (fops hb)) with
  | None => ret (- ENOTTY)
  | Some drv_ioctl =>
    vfs_exlock h ;;
    let* r := call (EvFileOp OpIoctl h) (drv_ioctl h request argp) in
    vfs_exunlock h ;;
    ret r
  end.

Definition vfs_fcntl (h : fs_handle) (cmd arg : Z) : M Z :=
  NO_TEST_ASSERT is_preemption_enabled ;;
  let* hb := load_hb h in
  match fcntl (file_ops_at (fops hb)) with
  | None => ret (- EINVAL)
  | Some drv_fcntl =>
    vfs_exlock h ;;
    let* r := call (EvFileOp OpFcntl h) (drv_fcntl h cmd arg) in
    vfs_exunlock h ;;
    ret r
  end.

Definition vfs_mkdir (path : string) (mode : Z) : M Z :=
  NO_TEST_ASSERT is_preemption_enabled ;;
  ASSERT (is_absolute path) ;;
  let* r := get_retained_fs_at path in
  match r with
  | None => ret (- ENOENT)
  | Some (f, fs_path) =>
    let* x := load_fs f in
    if negb (nz (Z.land (flags x) VFS_FS_RW)) then ret (- EROFS)
    else
      match mkdir (fs_ops_at (fsops x)) with
      | None => ret (- EPERM)
      | Some drv_mkdir =>
        vfs_fs_exlock f ;;
        let* (rc, p) := vfs_resolve f fs_path in
        let* rc :=
          (if rc =? 0 then call (EvFsOp OpMkdir f) (drv_mkdir p mode)
           else ret rc) in
        vfs_fs_exunlock f ;;
        release_obj f ;;
        ret rc
      end
  end.

Definition vfs_rmdir (path : string) : M Z :=
  NO_TEST_ASSERT is_preemption_enabled ;;
  ASSERT (is_absolute path) ;;
  let* r := get_retained_fs_at path in
  match r with
  | None => ret (- ENOENT)
  | Some (f, fs_path) =>
    let* x := load_fs f in
    if negb (nz (Z.land (flags x) VFS_FS_RW)) then ret (- EROFS)
    else
      match rmdir (fs_ops_at (fsops x)) with
      | None => ret (- EPERM)
      | Some drv_rmdir =>
        vfs_fs_exlock f ;;
        let* (rc, p) := vfs_resolve f fs_path in
        let* rc :=
          (if rc =? 0 then call (EvFsOp OpRmdir f) (drv_rmdir p)
           else ret rc) in
        vfs_fs_exunlock f ;;
        release_obj f ;;
        ret rc
      end
  end.

Definition vfs_unlink (path : string) : M Z :=
  NO_TEST_ASSERT is_preemption_enabled ;;
  ASSERT (is_absolute path) ;;
  let* r := get_retained_fs_at path in
  match r with
  | None => ret (- ENOENT)
  | Some (f, fs_path) =>
    let* x := load_fs f in
    if negb (nz (Z.land (flags x) VFS_FS_RW)) then ret (- EROFS)
    else
      match unlink (fs_ops_at (fsops x)) with
      | None => ret (- EROFS)
      | Some drv_unlink =>
        vfs_fs_exlock f ;;
        let* (rc, p) := vfs_resolve f fs_path in
        let* rc :=
          (if rc =? 0 then call (EvFsOp OpUnlink f) (drv_unlink p)
           else ret rc) in
        vfs_fs_exunlock f ;;
        release_obj f ;;
        ret rc
      end
  end.

(** [next_device_id] is a [u32]: the increment wraps at [2^32]. *)
Definition vfs_get_new_device_id : M Z :=
  fun w => Some (next_device_id w,
                 with_next_device_id w ((next_device_id w + 1) mod 2 ^ 32)).

End Dispatch.

Section Observations.
Context {abi : Abi} {K : Kernel}.

(** ** What a call did *)

(** The collaborator calls made between [w] and [w']. *)
Definition emitted (w w' : world) : list event :=
  drop (length (trace w)) (trace w').

Definition releases (f : fs_ptr) (evs : list event) : nat :=
  count_occ event_eq_dec evs (EvRelease f).

Definition retains (f : fs_ptr) (evs : list event) : nat :=
  count_occ event_eq_dec evs (EvRetain f).

Definition is_resolver_call (e : event) : bool :=
  match e with
  | EvResolve _ _ => true
  | _ => false
  end.

Definition is_driver_call (e : event) : bool :=
  match e with
  | EvFsOp _ _ | EvFileOp _ _ => true
  | _ => false
  end.

(** No call in [evs] satisfies [p]. *)
Definition none_of (p : event -> bool) (evs : list event) : Prop :=
  forallb (fun e => negb (p e)) evs = true.

(** A call that returned [rc] from [w] without reaching the resolver or a
    driver. *)
Definition rejected {A} (r : option (A * world)) (rc : A) (w : world) : Prop :=
  exists w', r = Some (rc, w') /\
             none_of is_resolver_call (emitted w w') /\
             none_of is_driver_call (emitted w w').

(** The reference count of the filesystem at [f], 0 when there is none. *)
Definition ref_count_at (f : fs_ptr) (w : world) : Z :=
  match fss w !! f with
  | Some x => ref_count x
  | None => 0
  end.

(** The four dispatch operations that start from a path. *)
Inductive path_op :=
| DoOpen (flags mode : Z)
| DoMkdir (mode : Z)
| DoRmdir
| DoUnlink.

Definition run_path_op (op : path_op) (path : string) : M Z :=
  match op with
  | DoOpen flags mode => let* (rc, _) := vfs_open path flags mode in ret rc
  | DoMkdir mode => vfs_mkdir path mode
  | DoRmdir => vfs_rmdir path
  | DoUnlink => vfs_unlink path
  end.

Definition is_open (op : path_op) : bool :=
  match op with
  | DoOpen _ _ => true
  | _ => false
  end.

(** ** The device-identifier allocator over time *)

(** The state at boot: [static u32 next_device_id;] starts as 0, and nothing
    has been called yet. *)
Definition boot (x : gmap nat filesystem) (m : drv_mem drv_state) : world :=
  mk_world true x m 0 [].

(** The result of call number [n] (counting from 0) of
    [vfs_get_new_device_id]. *)
Fixpoint nth_device_id (n : nat) : M Z :=
  match n with
  | O => vfs_get_new_device_id
  | S n' => vfs_get_new_device_id ;; nth_device_id n'
  end.

(** ** Error kinds *)

(** Modelled from the spec: the error taxonomy of the dispatch layer, each
    kind with the errno the code returns where the operation contracts name
    the kind. *)
Inductive error_kind :=
| NotFound
| ReadOnlyFilesystem
| PermissionDenied
| BadDescriptor
| InvalidArgument
| NotSeekable
| DeviceControlNotSupported
| NotSupportedYet.

Definition errno_of (k : error_kind) : Z :=
  match k with
  | NotFound => ENOENT
  | ReadOnlyFilesystem => EROFS
  | PermissionDenied => EPERM
  | BadDescriptor => EBADF
  | InvalidArgument => EINVAL
  | NotSeekable => ESPIPE
  | DeviceControlNotSupported => ENOTTY
  | NotSupportedYet => EOPNOTSUPP
  end.

(** The status a dispatch function returns for an error of kind [k]. *)
Definition err (k : error_kind) : Z := - errno_of k.

End Observations.

Section MoreObservations.
Context {abi : Abi} {K : Kernel}.

(** ** The operations that start from a handle *)

Inductive handle_op :=
| DoRead (buf : nat) (buf_size : Z)
| DoWrite (buf : nat) (buf_size : Z)
| DoSeek (off whence : Z)
| DoIoctl (request : Z) (argp : nat)
| DoFcntl (cmd arg : Z).

Definition run_handle_op (op : handle_op) (h : fs_handle) : M Z :=
  match op with
  | DoRead buf n => vfs_read h buf n
  | DoWrite buf n => vfs_write h buf n
  | DoSeek off whence => vfs_seek h off whence
  | DoIoctl request argp => vfs_ioctl h request argp
  | DoFcntl cmd arg => vfs_fcntl h cmd arg
  end.

(** The driver entry a directory operation ends in, with the operation's
    own arguments filled in; null when the driver has none. *)
Definition driver_entry (op : path_op) (t : fs_ops drv_state vfs_path)
  : option (vfs_path -> drv drv_state Z) :=
  match op with
  | DoOpen _ _ => None
  | DoMkdir mode => option_map (fun g p => g p mode) (mkdir t)
  | DoRmdir => rmdir t
  | DoUnlink => unlink t
  end.

Definition fs_op_of (op : path_op) : fs_op :=
  match op with
  | DoOpen _ _ => OpOpen
  | DoMkdir _ => OpMkdir
  | DoRmdir => OpRmdir
  | DoUnlink => OpUnlink
  end.

(** The status a directory operation gives a driver without the entry. *)
Definition missing_entry_status (op : path_op) : Z :=
  match op with
  | DoUnlink => - EROFS
  | _ => - EPERM
  end.

(** The flags [vfs_open] does not turn down; nothing to ask of the other
    operations. *)
Definition flags_accepted (op : path_op) : Prop :=
  match op with
  | DoOpen flags _ =>
    Z.land flags O_ASYNC = 0 /\ Z.land flags O_TMPFILE <> O_TMPFILE
  | _ => True
  end.

(** The data operations of a driver, each with its arguments filled in:
    what a handle operation calls past its checks. *)
Definition file_entry (op : handle_op) (t : file_ops drv_state)
  : option (fs_handle -> drv drv_state Z) :=
  match op with
  | DoRead buf n => option_map (fun g h => g h buf n) (read t)
  | DoWrite buf n => option_map (fun g h => g h buf n) (write t)
  | DoSeek off whence =>
    option_map (fun g h => g h (to_off_t off) whence) (seek t)
  | DoIoctl request argp => option_map (fun g h => g h request argp) (ioctl t)
  | DoFcntl cmd arg => option_map (fun g h => g h cmd arg) (fcntl t)
  end.

Definition file_op_of (op : handle_op) : file_op :=
  match op with
  | DoRead _ _ => OpRead
  | DoWrite _ _ => OpWrite
  | DoSeek _ _ => OpSeek
  | DoIoctl _ _ => OpIoctl
  | DoFcntl _ _ => OpFcntl
  end.

(** ** Lock disciplines, as checks of a log *)

(** The filesystem lock: taken only when free, released only by its
    holder, held at every call of the resolver and of a driver's [open],
    [mkdir], [rmdir] or [unlink], and free at the end. *)
Definition is_structural (op : fs_op) : bool :=
  match op with
  | OpOpen | OpMkdir | OpRmdir | OpUnlink => true
  | OpClose | OpDup => false
  end.

Fixpoint fs_lock_discipline (held : option fs_ptr) (evs : list event) : bool :=
  match evs with
  | [] => bool_decide (held = None)
  | EvFsExLock f :: rest =>
    bool_decide (held = None) && fs_lock_discipline (Some f) rest
  | EvFsExUnlock f :: rest =>
    bool_decide (held = Some f) && fs_lock_discipline None rest
  | EvResolve f _ :: rest =>
    bool_decide (held = Some f) && fs_lock_discipline held rest
  | EvFsOp op f :: rest =>
    (negb (is_structural op) || bool_decide (held = Some f))
    && fs_lock_discipline held rest
  | _ :: rest => fs_lock_discipline held rest
  end.

(** How a handle lock is held. *)
Inductive lock_mode := Shared | Exclusive.

Global Instance lock_mode_eq_dec : EqDecision lock_mode.
Proof. solve_decision. Defined.

(** The mode a driver entry must be called in. *)
Definition mode_of (op : file_op) : lock_mode :=
  match op with
  | OpRead | OpSeek => Shared
  | OpWrite | OpIoctl | OpFcntl => Exclusive
  end.

(** The handle lock: taken only when free, released in the mode it was
    taken in, held in the operation's mode at every call of a driver's
    data operation, and free at the end. *)
Fixpoint handle_lock_discipline
    (held : option (fs_handle * lock_mode)) (evs : list event) : bool :=
  match evs with
  | [] => bool_decide (held = None)
  | EvShLock h :: rest =>
    bool_decide (held = None) && handle_lock_discipline (Some (h, Shared)) rest
  | EvExLock h :: rest =>
    bool_decide (held = None)
    && handle_lock_discipline (Some (h, Exclusive)) rest
  | EvShUnlock h :: rest =>
    bool_decide (held = Some (h, Shared)) && handle_lock_discipline None rest
  | EvExUnlock h :: rest =>
    bool_decide (held = Some (h, Exclusive))
    && handle_lock_discipline None rest
  | EvFileOp op h :: rest =>
    bool_decide (held = Some (h, mode_of op))
    && handle_lock_discipline held rest
  | _ :: rest => handle_lock_discipline held rest
  end.

Definition is_fs_lock_call (e : event) : bool :=
  match e with
  | EvFsExLock _ | EvFsExUnlock _ => true
  | _ => false
  end.

Definition is_handle_lock_call (e : event) : bool :=
  match e with
  | EvShLock _ | EvShUnlock _ | EvExLock _ | EvExUnlock _ => true
  | _ => false
  end.

Definition is_refcount_call (e : event) : bool :=
  match e with
  | EvRetain _ | EvRelease _ => true
  | _ => false
  end.

End MoreObservations.

(** ** Text-mode colours and entries *)

(** [enum vga_color]. *)
Inductive vga_color :=
| COLOR_BLACK | COLOR_BLUE | COLOR_GREEN | COLOR_CYAN
| COLOR_RED | COLOR_MAGENTA | COLOR_BROWN | COLOR_LIGHT_GREY
| COLOR_DARK_GREY | COLOR_LIGHT_BLUE | COLOR_LIGHT_GREEN | COLOR_LIGHT_CYAN
| COLOR_LIGHT_RED | COLOR_LIGHT_MAGENTA | COLOR_LIGHT_BROWN | COLOR_WHITE.

Definition vga_color_value (c : vga_color) : Z :=
  match c with
  | COLOR_BLACK => 0 | COLOR_BLUE => 1 | COLOR_GREEN => 2 | COLOR_CYAN => 3
  | COLOR_RED => 4 | COLOR_MAGENTA => 5 | COLOR_BROWN => 6
  | COLOR_LIGHT_GREY => 7 | COLOR_DARK_GREY => 8 | COLOR_LIGHT_BLUE => 9
  | COLOR_LIGHT_GREEN => 10 | COLOR_LIGHT_CYAN => 11 | COLOR_LIGHT_RED => 12
  | COLOR_LIGHT_MAGENTA => 13 | COLOR_LIGHT_BROWN => 14 | COLOR_WHITE => 15
  end.

(** [#define make_color(fg, bg) ((fg) | (bg) << 4)], on [int]s. *)
Definition make_color (fg bg : Z) : Z := Z.lor fg (Z.shiftl bg 4).

(** The conversion [(u16)x]. *)
Definition to_u16 (x : Z) : Z := x mod 2 ^ 16.

(** [#define make_vgaentry(c, color) (((u16)c) | ((u16)color << 8))]: the
    operands are promoted to [int] after the casts, so the shift does not
    cut anything off. *)
Definition make_vgaentry (c color : Z) : Z :=
  Z.lor (to_u16 c) (Z.shiftl (to_u16 color) 8).

(** ** Real-mode far pointers *)

(** [far_ptr]: two [u16] fields. *)
Record far_ptr := mk_far_ptr {
  off : Z;
  seg : Z
}.

Definition far_ptr_ok (fp : far_ptr) : Prop :=
  0 <= off fp < 2 ^ 16 /\ 0 <= seg fp < 2 ^ 16.

(** The conversion [(u32)x]. *)
Definition to_u32 (x : Z) : Z := x mod 2 ^ 32.

(** [(void * )((u32)fp.off + ((u32)fp.seg) * 16)], in [u32] arithmetic. *)
Definition get_flat_ptr (fp : far_ptr) : Z :=
  to_u32 (to_u32 (off fp) + to_u32 (to_u32 (seg fp) * 16)).

(** ** Kernel messages: [vprintk] *)

Module Printk.

(** The number conversions fill [buf] with a text; their code is outside
    the sources, so each is a parameter: the text it leaves for a value. *)
Class Conversions := {
  itoa32 : Z -> string;
  uitoa32_dec : Z -> string;
  uitoa32_hex : Z -> string;
  uitoa32_hex_fixed : Z -> string;
  itoa64 : Z -> string;
  uitoa64_dec : Z -> string
}.

(** A variadic argument as the caller passed it: a 32-bit word, a 64-bit
    word or a pointer to a text.  A [string] stands for the characters of a
    C string before its terminating NUL. *)
Inductive va_value :=
| VA32 (z : Z)
| VA64 (z : Z)
| VAStr (s : string).

(** A word read as a signed or as an unsigned integer of [bits] bits. *)
Definition as_unsigned (bits z : Z) : Z := z mod 2 ^ bits.

Definition as_signed (bits z : Z) : Z :=
  if as_unsigned bits z <? 2 ^ (bits - 1) then as_unsigned bits z
  else as_unsigned bits z - 2 ^ bits.

(** [va_arg(args, T)]: the next argument and the rest; taking an argument
    that is not there, or one of another size, is undefined. *)
Definition va_arg32 (args : list va_value) : option (Z * list va_value) :=
  match args with
  | VA32 z :: rest => Some (z, rest)
  | _ => None
  end.

Definition va_arg64 (args : list va_value) : option (Z * list va_value) :=
  match args with
  | VA64 z :: rest => Some (z, rest)
  | _ => None
  end.

Definition va_arg_str (args : list va_value)
  : option (string * list va_value) :=
  match args with
  | VAStr s :: rest => Some (s, rest)
  | _ => None
  end.

(** The [char] an [s32] becomes when passed to [term_write_char]. *)
Definition char_of (z : Z) : ascii := ascii_of_N (Z.to_N (z mod 256)).

(** What the rest of a run writes, after [term_write_char(c)]. *)
Definition term_write_char (c : ascii) (k : option string) : option string :=
  option_map (String c) k.

(** What the rest of a run writes, after [print_string(s)]. *)
Definition print_string (s : string) (k : option string) : option string :=
  option_map (String.append s) k.

Section Loop.
Context {conv : Conversions}.

(** The [while ( *ptr)] loop of [vprintk], from [ptr] on: the characters
    written to the terminal, or [None] when [ptr] is moved past the
    terminating NUL and read there. *)
Fixpoint vprintk_loop (ptr : string) (args : list va_value)
  : option string :=
  match ptr with
  | EmptyString => Some EmptyString
  | String c rest =>
    if negb (c =? "%")%char then term_write_char c (vprintk_loop rest args)
    else
      match rest with
      | EmptyString => None
      | String c1 r1 =>
        if (c1 =? "%")%char then vprintk_loop rest args
        else if (c1 =? "l")%char then
          match r1 with
          | EmptyString => None
          | String c2 r2 =>
            if (c2 =? "l")%char then
              match r2 with
              | EmptyString => None
              | String c3 r3 =>
                if (c3 =? "u")%char then
                  match va_arg64 args with
                  | Some (v, args') =>
                    print_string (uitoa64_dec (as_unsigned 64 v))
                      (vprintk_loop r3 args')
                  | None => None
                  end
                else if (c3 =? "i")%char || (c3 =? "d")%char then
                  match va_arg64 args with
                  | Some (v, args') =>
                    print_string (itoa64 (as_signed 64 v))
                      (vprintk_loop r3 args')
                  | None => None
                  end
                else vprintk_loop r3 args
              end
            else vprintk_loop r2 args
          end
        else if (c1 =? "d")%char || (c1 =? "i")%char then
          match va_arg32 args with
          | Some (v, args') =>
            print_string (itoa32 (as_signed 32 v)) (vprintk_loop r1 args')
          | None => None
          end
        else if (c1 =? "u")%char then
          match va_arg32 args with
          | Some (v, args') =>
            print_string (uitoa32_dec (as_unsigned 32 v))
              (vprintk_loop r1 args')
          | None => None
          end
        else if (c1 =? "x")%char then
          match va_arg32 args with
          | Some (v, args') =>
            print_string (uitoa32_hex (as_unsigned 32 v))
              (vprintk_loop r1 args')
          | None => None
          end
        else if (c1 =? "c")%char then
          match va_arg32 args with
          | Some (v, args') =>
            term_write_char (char_of (as_signed 32 v))
              (vprintk_loop r1 args')
          | None => None
          end
        else if (c1 =? "s")%char then
          match va_arg_str args with
          | Some (s, args') => print_string s (vprintk_loop r1 args')
          | None => None
          end
        else if (c1 =? "p")%char then
          match va_arg32 args with
          | Some (v, args') =>
            print_string "0x"
              (print_string (uitoa32_hex_fixed (as_unsigned 32 v))
                 (vprintk_loop r1 args'))
          | None => None
          end
        else term_write_char "%" (term_write_char c1 (vprintk_loop r1 args))
      end
  end.

Definition vprintk (fmt : string) (args : list va_value) : option string :=
  print_string "[kernel] " (vprintk_loop fmt args).

(** [printk(fmt, ...)]: the variadic arguments as a list. *)
Definition printk (fmt : string) (args : list va_value) : option string :=
  vprintk fmt args.

(** The characters [vprintk] gives a meaning after a ['%']. *)
Definition known_directive (c : ascii) : bool :=
  (c =? "%")%char || (c =? "l")%char || (c =? "d")%char || (c =? "i")%char
  || (c =? "u")%char || (c =? "x")%char || (c =? "c")%char
  || (c =? "s")%char || (c =? "p")%char.

(** No ['%'] in a text. *)
Fixpoint plain (s : string) : bool :=
  match s with
  | EmptyString => true
  | String c rest => negb (c =? "%")%char && plain rest
  end.

End Loop.

(** Conversions to try runs with: decimal digits are not needed to see what
    is printed where. *)
Definition tagged : Conversions := {|
  itoa32 := fun z => if z =? 5 then "5" else "<d>";
  uitoa32_dec := fun _ => "<u>";
  uitoa32_hex := fun _ => "<x>";
  uitoa32_hex_fixed := fun _ => "<p>";
  itoa64 := fun _ => "<lld>";
  uitoa64_dec := fun _ => "<llu>"
|}.

End Printk.

(** ** A kernel with nothing mounted *)

Module Unmounted.

Definition kernel : Kernel := {|
  drv_state := unit;
  vfs_path := unit;
  fs_ops_at := fun _ =>
    mk_fs_ops (fun _ _ _ m => ((- 1, None), m)) (fun _ m => (tt, m))
      (fun _ m => ((- 1, None), m)) None None None;
  file_ops_at := fun _ => mk_file_ops None None None None None;
  mountpoint_of := fun _ => None;
  resolve := fun _ _ m => ((- 2, tt), m);
  to_off_t := fun z => z
|}.

Definition w0 : @world kernel :=
  mk_world true ∅ (mk_drv_mem (tt : @drv_state kernel) ∅) 0 [].

End Unmounted.

(** ** A small kernel to run the functions on *)

Module Toy.

#[export] Existing Instance linux_i386.

(** The driver state is the next free handle address; a resolved path is the
    filesystem and the path in it. *)
Definition toy_open (p : fs_ptr * string) (flags mode : Z)
  : drv nat (Z * option fs_handle) :=
  fun m =>
    if String.eqb (snd p) "/denied" then ((- 13, None), m)
    else ((0, Some (dstate m)),
          mk_drv_mem (S (dstate m))
            (<[dstate m := mk_fs_handle_base (fst p) 0%nat 0 0]> (hbs m))).

(** Like a driver that copies the handle, descriptor flags included. *)
Definition toy_dup (h : fs_handle) : drv nat (Z * option fs_handle) :=
  fun m =>
    match hbs m !! h with
    | Some hb =>
      if fl_flags hb =? 7 then ((- 24, None), m)
      else ((0, Some (dstate m)),
            mk_drv_mem (S (dstate m)) (<[dstate m := hb]> (hbs m)))
    | None => ((- 9, None), m)
    end.

Definition toy_dirop (p : fs_ptr * string) : drv nat Z :=
  fun m => if String.eqb (snd p) "/denied" then (- 13, m) else (0, m).

Definition full_fs_ops : fs_ops nat (fs_ptr * string) :=
  mk_fs_ops toy_open (fun _ m => (tt, m)) toy_dup
    (Some (fun p _ => toy_dirop p)) (Some toy_dirop) (Some toy_dirop).

Definition bare_fs_ops : fs_ops nat (fs_ptr * string) :=
  mk_fs_ops toy_open (fun _ m => (tt, m)) toy_dup None None None.

Definition full_file_ops : file_ops nat :=
  mk_file_ops (Some (fun _ _ n m => (n, m)))
              (Some (fun _ _ n m => (n, m)))
              (Some (fun _ off _ m => (off, m)))
              (Some (fun _ _ _ m => (0, m)))
              (Some (fun _ _ _ m => (0, m))).

(** A driver whose [read] and [write] answer [-EBADF] themselves. *)
Definition ebadf_file_ops : file_ops nat :=
  mk_file_ops (Some (fun _ _ _ m => (- 9, m)))
              (Some (fun _ _ _ m => (- 9, m)))
              None None None.

Definition no_file_ops : file_ops nat :=
  mk_file_ops None None None None None.

(** Mounts: [/ro] is filesystem 2, [/dev] is filesystem 3, the root is
    filesystem 1. *)
Definition toy_mountpoint_of (path : string) : option (fs_ptr * string) :=
  if String.prefix "/ro/" path
  then Some (2%nat, String.substring 3 (String.length path - 3) path)
  else if String.prefix "/dev/" path
  then Some (3%nat, String.substring 4 (String.length path - 4) path)
  else if String.prefix "/" path then Some (1%nat, path)
  else None.

Definition toy_resolve (f : fs_ptr) (fs_path : string)
  : drv nat (Z * (fs_ptr * string)) :=
  fun m => if String.eqb fs_path "/missing" then ((- 2, (f, fs_path)), m)
           else ((0, (f, fs_path)), m).

#[export] Instance kernel : Kernel := {|
  drv_state := nat;
  vfs_path := fs_ptr * string;
  fs_ops_at := fun n => match n with O => full_fs_ops | _ => bare_fs_ops end;
  file_ops_at := fun n => match n with
                          | O => full_file_ops
                          | 1%nat => ebadf_file_ops
                          | _ => no_file_ops
                          end;
  mountpoint_of := toy_mountpoint_of;
  resolve := toy_resolve;
  to_off_t := fun z => (z + 2 ^ 31) mod 2 ^ 32 - 2 ^ 31
|}.

(** Filesystem 1 is read-write with every operation, 2 is read-only, 3 is
    read-write but its driver has no mkdir, rmdir or unlink. *)
Definition mounts : gmap nat filesystem :=
  <[1%nat := mk_filesystem 1 0%nat 7]>
    (<[2%nat := mk_filesystem 0 0%nat 1]>
       (<[3%nat := mk_filesystem 1 1%nat 1]> ∅)).

(** Handles 1..4 of filesystem 1: read-only, write-only, handle without
    operations, handle of the driver that answers [-EBADF]; handle 5 is the
    one [toy_dup] refuses, handle 6 has close-on-exec set and both
    [O_WRONLY] and [O_RDWR] among its open-mode flags. *)
Definition handles : gmap nat fs_handle_base :=
  <[1%nat := mk_fs_handle_base 1%nat 0%nat 0 0]>
    (<[2%nat := mk_fs_handle_base 1%nat 0%nat 0 1]>
       (<[3%nat := mk_fs_handle_base 1%nat 2%nat 0 2]>
          (<[4%nat := mk_fs_handle_base 1%nat 1%nat 0 2]>
             (<[5%nat := mk_fs_handle_base 1%nat 0%nat 0 7]>
                (<[6%nat := mk_fs_handle_base 1%nat 0%nat 1 3]> ∅))))).

Definition w0 : world := mk_world true mounts (mk_drv_mem 7%nat handles) 0 [].

(** The world a run from [w0] ends in. *)
Definition world_of {A} (r : option (A * world)) : world :=
  match r with
  | Some (_, w) => w
  | None => w0
  end.

Definition w_open : world :=
  Eval vm_compute in world_of (vfs_open "/a" 0 0 w0).

Definition w_open_cloexec : world :=
  Eval vm_compute in world_of (vfs_open "/a" (Z.lor O_CLOEXEC O_RDWR) 0 w0).

Definition w_unlink_denied : world :=
  Eval vm_compute in world_of (vfs_unlink "/denied" w0).

Definition w_mkdir_ro : world :=
  Eval vm_compute in world_of (vfs_mkdir "/ro/a" 0 w0).

Definition w_dup6 : world :=
  Eval vm_compute in world_of (vfs_dup 6%nat w0).

Definition w_write2 : world :=
  Eval vm_compute in world_of (vfs_write 2%nat 0%nat 10 w0).

Definition w_open_denied : world :=
  Eval vm_compute in world_of (vfs_open "/denied" 0 0 w0).

End Toy.

(** * Properties *)

Section Properties.
Context {abi : Abi} {K : Kernel}.

(** ** Running the primitives *)

Lemma emitted_app (w w' : world) (l : list event) :
  trace w' = trace w ++ l -> emitted w w' = l.
Proof.
  intros E. unfold emitted. rewrite E. apply drop_app_length.
Qed.

Lemma emitted_refl (w : world) : emitted w w = [].
Proof. apply emitted_app. symmetry. apply app_nil_r. Qed.

Lemma nz_true (x : Z) : nz x = true <-> x <> 0.
Proof. unfold nz. rewrite negb_true_iff, Z.eqb_neq. tauto. Qed.

Lemma nz_false (x : Z) : nz x = false <-> x = 0.
Proof. unfold nz. rewrite negb_false_iff, Z.eqb_eq. tauto. Qed.

Lemma null_test (h : fs_handle) : h <> NULL -> (h =? NULL)%nat = false.
Proof. intros H. now apply Nat.eqb_neq. Qed.

(** A negated error number is not the success status. *)
Lemma err_nonzero (k : error_kind) : err k <> 0.
Proof.
  pose proof errno_pos as P. rewrite !Forall_cons in P.
  unfold err. destruct k; cbn [errno_of]; lia.
Qed.

Lemma land_lor_same (a c : Z) : Z.land (Z.lor a c) c = c.
Proof.
  apply Z.bits_inj'. intros n _. rewrite Z.land_spec, Z.lor_spec.
  destruct (Z.testbit a n), (Z.testbit c n); reflexivity.
Qed.

Lemma land_lor_zero (a b c : Z) :
  Z.land a (Z.lor b c) = 0 <-> Z.land a b = 0 /\ Z.land a c = 0.
Proof. rewrite Z.land_lor_distr_r. apply Z.lor_eq_0_iff. Qed.

(** Unfolding of the monad and of the primitives, for symbolic runs. *)
Ltac unfold_vfs :=
  unfold vfs_open, vfs_close, vfs_dup, vfs_read, vfs_write, vfs_seek,
    vfs_ioctl, vfs_fcntl, vfs_mkdir, vfs_rmdir, vfs_unlink,
    get_retained_fs_at, vfs_resolve, retain_obj, release_obj, get_ref_count,
    vfs_fs_exlock, vfs_fs_exunlock, vfs_shlock, vfs_shunlock, vfs_exlock,
    vfs_exunlock, call, log, deref, load_fs, store_fs, load_hb, store_hb,
    ASSERT, NO_TEST_ASSERT, is_preemption_enabled, bind, ret, panic in *.

Ltac world_simpl :=
  cbn [preemption_enabled fss dmem next_device_id trace with_fss with_dmem
       with_next_device_id with_trace with_hbs hbs dstate fst snd] in *.

(** The calls between two worlds whose traces are explicit. *)
Ltac emitted_norm :=
  repeat match goal with
  | |- context [emitted ?w ?w'] =>
    erewrite (emitted_app w w')
      by (world_simpl; rewrite <- ?app_assoc; reflexivity)
  | H : context [emitted ?w ?w'] |- _ =>
    erewrite (emitted_app w w') in H
      by (world_simpl; rewrite <- ?app_assoc; reflexivity)
  end;
  cbn [app] in *.

Ltac count_events :=
  unfold retains, releases;
  repeat first
    [ rewrite count_occ_cons_eq by reflexivity
    | rewrite count_occ_cons_neq by discriminate ];
  rewrite ?count_occ_nil.

(** Case analysis along every branch a run may have taken. *)
Ltac invert_run :=
  unfold_vfs; world_simpl; repeat (case_match; simplify_eq); world_simpl.

(** ** Read-only mounts and missing capabilities *)

(** C3. On an absolute path whose mount lookup succeeds on a filesystem
    without the read-write flag, [vfs_mkdir], [vfs_rmdir] and [vfs_unlink]
    return [-EROFS] (ReadOnlyFilesystem) and make neither a resolver nor a
    driver call. *)
Theorem read_only_mount_is_rejected
    (path : string) (mode : Z) (w : world) (f : fs_ptr) (fs_path : string)
    (x : filesystem) :
  preemption_enabled w = true ->
  is_absolute path = true ->
  mountpoint_of path = Some (f, fs_path) ->
  fss w !! f = Some x ->
  Z.land (flags x) VFS_FS_RW = 0 ->
  rejected (vfs_mkdir path mode w) (err ReadOnlyFilesystem) w /\
  rejected (vfs_rmdir path w) (err ReadOnlyFilesystem) w /\
  rejected (vfs_unlink path w) (err ReadOnlyFilesystem) w.
Proof.
  intros Hp Ha Hm Hf Hro.
  assert (Hnz : nz (Z.land (flags x) VFS_FS_RW) = false) by now apply nz_false.
  unfold rejected, err, errno_of.
  repeat split; eexists;
    (split;
     [ unfold_vfs; world_simpl; rewrite Hp, Ha, Hm; world_simpl; rewrite Hf;
       world_simpl; rewrite lookup_insert_eq; cbn [flags]; rewrite Hnz;
       reflexivity
     | unfold none_of; emitted_norm; split; reflexivity ]).
Qed.

(** C4. On a read-write mount whose driver has no [unlink], [vfs_unlink]
    returns [-EROFS] (ReadOnlyFilesystem); where it has no [mkdir] or no
    [rmdir], [vfs_mkdir] and [vfs_rmdir] return [-EPERM]
    (PermissionDenied); none of them reaches the resolver or the driver. *)
Theorem missing_capability_is_rejected
    (path : string) (mode : Z) (w : world) (f : fs_ptr) (fs_path : string)
    (x : filesystem) :
  preemption_enabled w = true ->
  is_absolute path = true ->
  mountpoint_of path = Some (f, fs_path) ->
  fss w !! f = Some x ->
  Z.land (flags x) VFS_FS_RW <> 0 ->
  (unlink (fs_ops_at (fsops x)) = None ->
   rejected (vfs_unlink path w) (err ReadOnlyFilesystem) w) /\
  (mkdir (fs_ops_at (fsops x)) = None ->
   rejected (vfs_mkdir path mode w) (err PermissionDenied) w) /\
  (rmdir (fs_ops_at (fsops x)) = None ->
   rejected (vfs_rmdir path w) (err PermissionDenied) w).
Proof.
  intros Hp Ha Hm Hf Hrw.
  assert (Hnz : nz (Z.land (flags x) VFS_FS_RW) = true) by now apply nz_true.
  unfold rejected, err, errno_of.
  repeat split; intros Hcap; eexists;
    (split;
     [ unfold_vfs; world_simpl; rewrite Hp, Ha, Hm; world_simpl; rewrite Hf;
       world_simpl; rewrite lookup_insert_eq; cbn [flags fsops];
       rewrite Hnz, Hcap; reflexivity
     | unfold none_of; emitted_norm; split; reflexivity ]).
Qed.

(** ** The retained reference *)

(** The returns of C3 and C4 happen after the lookup retained the
    filesystem and before any release: on a read-only mount, or when the
    driver has no [mkdir], [vfs_mkdir] returns with the reference count one
    higher than it found it. *)
Lemma mkdir_early_return_keeps_the_reference
    (path : string) (mode : Z) (w : world) (f : fs_ptr) (fs_path : string)
    (x : filesystem) :
  preemption_enabled w = true ->
  is_absolute path = true ->
  mountpoint_of path = Some (f, fs_path) ->
  fss w !! f = Some x ->
  Z.land (flags x) VFS_FS_RW = 0 \/ mkdir (fs_ops_at (fsops x)) = None ->
  exists rc w',
    vfs_mkdir path mode w = Some (rc, w') /\
    emitted w w' = [EvLookup path; EvRetain f] /\
    ref_count_at f w' = ref_count_at f w + 1.
Proof.
  intros Hp Ha Hm Hf Hc.
  assert (Hrun : exists rc,
             vfs_mkdir path mode w =
             Some (rc,
                   with_trace
                     (with_fss w
                        (<[f := mk_filesystem (flags x) (fsops x)
                                  (ref_count x + 1)]> (fss w)))
                     (trace w ++ [EvLookup path; EvRetain f]))).
  { unfold_vfs. world_simpl. rewrite Hp, Ha, Hm. world_simpl. rewrite Hf.
    world_simpl. rewrite lookup_insert_eq. cbn [flags fsops].
    rewrite <- app_assoc. cbn [app].
    destruct (nz (Z.land (flags x) VFS_FS_RW)) eqn:Hnz; cbn [negb];
      [| eexists; reflexivity].
    destruct Hc as [Hro | ->]; [| eexists; reflexivity].
    apply nz_false in Hro. congruence. }
  destruct Hrun as (rc & Hrun). exists rc. eexists. split; [exact Hrun |].
  split.
  - apply emitted_app. reflexivity.
  - unfold ref_count_at. world_simpl. rewrite lookup_insert_eq, Hf.
    reflexivity.
Qed.

(** With its asserted preconditions met and the filesystem in place, a
    directory operation always returns. *)
Lemma dir_ops_return
    (op : path_op) (path : string) (w : world) (f : fs_ptr)
    (fs_path : string) (x : filesystem) :
  is_open op = false ->
  preemption_enabled w = true ->
  is_absolute path = true ->
  mountpoint_of path = Some (f, fs_path) ->
  fss w !! f = Some x ->
  exists rc w', run_path_op op path w = Some (rc, w').
Proof.
  intros Hop Hp Ha Hm Hf.
  destruct op; try discriminate Hop; cbn [run_path_op].
  all: unfold_vfs; world_simpl; rewrite Hp, Ha, Hm; world_simpl; rewrite Hf.
  all: world_simpl; rewrite !lookup_insert_eq; cbn [flags fsops ref_count].
  all: repeat (case_match; world_simpl;
               rewrite ?lookup_insert_eq in *; simplify_eq); eauto.
Qed.

(** C1, as the code has it.  When the mount lookup succeeded and the call
    got to the resolver, the lookup's retain is the only one, and the
    reference is released exactly once before the return, whether the
    resolver failed, the driver failed or the operation succeeded; except
    that a successful [vfs_open] releases nothing: the reference stays with
    the new handle. *)
Theorem reference_released_once_past_resolver
    (op : path_op) (path : string) (w w' : world) (rc : Z)
    (f : fs_ptr) (fs_path : string) :
  mountpoint_of path = Some (f, fs_path) ->
  run_path_op op path w = Some (rc, w') ->
  In (EvResolve f fs_path) (emitted w w') ->
  retains f (emitted w w') = 1%nat /\
  releases f (emitted w w') =
    (if is_open op && (rc =? 0) then 0%nat else 1%nat) /\
  ref_count_at f w' =
    ref_count_at f w + (if is_open op && (rc =? 0) then 1 else 0).
Proof.
  intros Hm Hrun Hres.
  destruct op; cbn [run_path_op is_open andb] in *.
  all: invert_run.
  all: try rewrite emitted_refl in Hres.
  all: emitted_norm; cbn [In] in Hres.
  all: try (exfalso; intuition discriminate).
  all: count_events.
  all: unfold ref_count_at; world_simpl.
  all: repeat match goal with
       | H : <[_ := _]> _ !! _ = Some _ |- _ =>
         rewrite lookup_insert_eq in H; simplify_eq
       end; cbn [flags fsops ref_count] in *.
  all: rewrite ?lookup_insert_eq; cbn [flags fsops ref_count] in *.
  all: repeat match goal with
       | H : fss _ !! _ = Some _ |- _ => rewrite H
       | H : (_ =? _) = true |- _ => rewrite H
       | H : (_ =? _) = false |- _ => rewrite H
       end.
  all: repeat split; try reflexivity; try lia.
Qed.

(** ** Rejected open flags *)

(** C2, as the code has it.  With preemption enabled and an absolute path,
    [vfs_open] with [O_ASYNC] among the flags returns [-EINVAL]
    (InvalidArgument) and leaves the world as it was: no registry lookup,
    no retain, no resolver call. *)
Theorem open_async_is_invalid_argument
    (path : string) (flags mode : Z) (w : world) :
  preemption_enabled w = true ->
  is_absolute path = true ->
  Z.land flags O_ASYNC <> 0 ->
  vfs_open path flags mode w = Some ((err InvalidArgument, None), w).
Proof.
  intros Hp Ha Hasync. apply nz_true in Hasync.
  unfold_vfs. rewrite Hp, Ha, Hasync. reflexivity.
Qed.

(** ** Handles: seek *)

(** C6. With a [whence] other than [SEEK_SET], [SEEK_CUR] and [SEEK_END],
    [vfs_seek] returns [-EINVAL] (InvalidArgument) and the world is as it
    was, the driver not called; with one of the three on a handle whose
    driver has no [seek], it returns [-ESPIPE] (NotSeekable). *)
Theorem seek_rejections (h : fs_handle) (off whence : Z) (w : world) :
  preemption_enabled w = true ->
  h <> NULL ->
  (whence <> SEEK_SET /\ whence <> SEEK_CUR /\ whence <> SEEK_END ->
   vfs_seek h off whence w = Some (err InvalidArgument, w)) /\
  (whence = SEEK_SET \/ whence = SEEK_CUR \/ whence = SEEK_END ->
   forall hb : fs_handle_base,
     hbs (dmem w) !! h = Some hb ->
     seek (file_ops_at (fops hb)) = None ->
     vfs_seek h off whence w = Some (err NotSeekable, w)).
Proof.
  intros Hp Hh. apply null_test in Hh.
  split.
  - intros (H1 & H2 & H3). apply Z.eqb_neq in H1, H2, H3.
    unfold_vfs. rewrite Hp, Hh, H1, H2, H3. reflexivity.
  - intros Hw hb Hhb Hseek.
    assert (E : negb (whence =? SEEK_SET) && negb (whence =? SEEK_CUR)
                && negb (whence =? SEEK_END) = false).
    { destruct Hw as [-> | [-> | ->]]; rewrite Z.eqb_refl; cbn;
        rewrite ?andb_false_r; reflexivity. }
    unfold_vfs. rewrite Hp, Hh. cbn [negb]. rewrite E, Hhb, Hseek.
    reflexivity.
Qed.

(** ** Handles: dup *)

(** C5. For a non-null handle, [vfs_dup] passes a driver error through as
    it is, retaining nothing.  When the driver's [dup] succeeds, [vfs_dup]
    returns 0 with the duplicate, the duplicate's descriptor flags are 0
    whatever the driver copied into them, so close-on-exec is not set, and
    the owning filesystem is retained exactly once: its reference count is
    one more than before. *)
Theorem dup_contract
    (h : fs_handle) (w : world) (hb : fs_handle_base) (x : filesystem)
    (rc : Z) (out : option fs_handle) (m : drv_mem drv_state) :
  h <> NULL ->
  hbs (dmem w) !! h = Some hb ->
  fss w !! fs hb = Some x ->
  dup (fs_ops_at (fsops x)) h (dmem w) = ((rc, out), m) ->
  (rc <> 0 ->
   exists w', vfs_dup h w = Some ((rc, out), w') /\
              emitted w w' = [EvFsOp OpDup (fs hb)] /\
              ref_count_at (fs hb) w' = ref_count_at (fs hb) w) /\
  (rc = 0 ->
   forall (d : fs_handle) (db hb' : fs_handle_base),
     out = Some d -> d <> NULL ->
     hbs m !! d = Some db ->
     hbs m !! h = Some hb' -> fs hb' = fs hb ->
     exists w' db',
       vfs_dup h w = Some ((0, Some d), w') /\
       hbs (dmem w') !! d = Some db' /\
       fd_flags db' = 0 /\
       Z.land (fd_flags db') FD_CLOEXEC = 0 /\
       emitted w w' = [EvFsOp OpDup (fs hb); EvRetain (fs hb)] /\
       ref_count_at (fs hb) w' = ref_count_at (fs hb) w + 1).
Proof.
  intros Hh Hhb Hx Hdup. pose proof (null_test h Hh) as Hn.
  split.
  - intros Hrc. apply nz_true in Hrc.
    eexists. split; [| split].
    + unfold_vfs. rewrite Hn. cbn [negb]. rewrite Hhb, Hx. world_simpl.
      rewrite Hdup, Hrc. reflexivity.
    + emitted_norm. reflexivity.
    + reflexivity.
  - intros -> d db hb' -> Hd Hdb Hhb' Hfs. apply null_test in Hd.
    assert (Hafter : exists hb2,
               <[d := mk_fs_handle_base (fs db) (fops db) 0 (fl_flags db)]>
                 (hbs m) !! h = Some hb2 /\ fs hb2 = fs hb).
    { destruct (decide (d = h)) as [-> | Hne].
      - rewrite lookup_insert_eq. eexists. split; [reflexivity |].
        cbn [fs]. congruence.
      - rewrite lookup_insert_ne by exact Hne. eauto. }
    destruct Hafter as (hb2 & Hhb2 & Hfs2).
    eexists. eexists. split; [| split; [| split; [| split; [| split]]]].
    + unfold_vfs. rewrite Hn. cbn [negb]. rewrite Hhb, Hx. world_simpl.
      rewrite Hdup. cbn [nz Z.eqb negb]. world_simpl. rewrite Hdb.
      world_simpl. rewrite Hhb2. world_simpl. rewrite Hfs2, Hx.
      world_simpl. rewrite Hd. reflexivity.
    + world_simpl. apply lookup_insert_eq.
    + reflexivity.
    + apply Z.land_0_l.
    + emitted_norm. reflexivity.
    + unfold ref_count_at. world_simpl. rewrite lookup_insert_eq, Hx.
      reflexivity.
Qed.

(** ** The stamp of open *)

(** C7. Whenever [vfs_open] succeeds, the handle it returns has the
    [flags] argument as its open-mode flags, and if [O_CLOEXEC] was among
    them, [FD_CLOEXEC] is set in its descriptor flags. *)
Theorem open_stamps_flags
    (path : string) (flags mode : Z) (w w' : world) (out : option fs_handle) :
  vfs_open path flags mode w = Some ((0, out), w') ->
  exists (h : fs_handle) (hb : fs_handle_base),
    out = Some h /\
    hbs (dmem w') !! h = Some hb /\
    fl_flags hb = flags /\
    (Z.land flags O_CLOEXEC <> 0 ->
     Z.land (fd_flags hb) FD_CLOEXEC = FD_CLOEXEC).
Proof.
  intros Hrun.
  pose proof (err_nonzero InvalidArgument) as E1.
  pose proof (err_nonzero NotSupportedYet) as E2.
  pose proof (err_nonzero NotFound) as E3.
  unfold err in *. cbn [errno_of] in *.
  invert_run; try congruence.
  all: repeat match goal with
       | H : <[_ := _]> _ !! _ = Some _ |- _ =>
         rewrite lookup_insert_eq in H; simplify_eq
       end.
  all: eexists; eexists; (split; [reflexivity |]);
       (split; [apply lookup_insert_eq |]); cbn [fl_flags fd_flags].
  all: split; [reflexivity |]; intros Hc.
  - apply land_lor_same.
  - match goal with H : nz _ = false |- _ => apply nz_false in H end.
    contradiction.
Qed.

(** ** Handles: read and write *)

(** Past its checks, [vfs_read] calls the driver's [read] once, between the
    acquire and the release of the handle lock in shared mode, and returns
    what the driver returned. *)
Lemma vfs_read_calls_driver
    (h : fs_handle) (buf : nat) (n : Z) (w : world) (hb : fs_handle_base)
    (drv_read : fs_handle -> nat -> Z -> drv drv_state Z) :
  preemption_enabled w = true ->
  h <> NULL ->
  hbs (dmem w) !! h = Some hb ->
  read (file_ops_at (fops hb)) = Some drv_read ->
  ~ (Z.land (fl_flags hb) O_WRONLY <> 0 /\ Z.land (fl_flags hb) O_RDWR = 0) ->
  exists w',
    vfs_read h buf n w = Some (fst (drv_read h buf n (dmem w)), w') /\
    emitted w w' = [EvShLock h; EvFileOp OpRead h; EvShUnlock h].
Proof.
  intros Hp Hh Hhb Hrd Hmode. apply null_test in Hh.
  assert (E : nz (Z.land (fl_flags hb) O_WRONLY)
              && negb (nz (Z.land (fl_flags hb) O_RDWR)) = false).
  { apply not_true_is_false. intros T. apply Hmode.
    apply andb_prop in T as (T1 & T2).
    apply nz_true in T1. apply negb_true_iff, nz_false in T2. tauto. }
  destruct (drv_read h buf n (dmem w)) as [r m'] eqn:Hd.
  eexists. split.
  - unfold_vfs. rewrite Hp, Hh. cbn [negb]. rewrite Hhb, Hrd, E.
    world_simpl. rewrite Hd. reflexivity.
  - emitted_norm. reflexivity.
Qed.

(** Past its checks, [vfs_write] calls the driver's [write] once, between
    the acquire and the release of the handle lock in exclusive mode. *)
Lemma vfs_write_calls_driver
    (h : fs_handle) (buf : nat) (n : Z) (w : world) (hb : fs_handle_base)
    (drv_write : fs_handle -> nat -> Z -> drv drv_state Z) :
  preemption_enabled w = true ->
  h <> NULL ->
  hbs (dmem w) !! h = Some hb ->
  write (file_ops_at (fops hb)) = Some drv_write ->
  ~ (Z.land (fl_flags hb) O_WRONLY = 0 /\ Z.land (fl_flags hb) O_RDWR = 0) ->
  exists w',
    vfs_write h buf n w = Some (fst (drv_write h buf n (dmem w)), w') /\
    emitted w w' = [EvExLock h; EvFileOp OpWrite h; EvExUnlock h].
Proof.
  intros Hp Hh Hhb Hwr Hmode. apply null_test in Hh.
  assert (E : negb (nz (Z.land (fl_flags hb) (Z.lor O_WRONLY O_RDWR))) = false).
  { apply negb_false_iff, nz_true. rewrite land_lor_zero. exact Hmode. }
  destruct (drv_write h buf n (dmem w)) as [r m'] eqn:Hd.
  eexists. split.
  - unfold_vfs. rewrite Hp, Hh. cbn [negb]. rewrite Hhb, Hwr, E.
    world_simpl. rewrite Hd. reflexivity.
  - emitted_norm. reflexivity.
Qed.

(** With a valid [whence] and a driver [seek], [vfs_seek] calls the driver
    once under the handle lock in shared mode. *)
Lemma vfs_seek_calls_driver
    (h : fs_handle) (off whence : Z) (w : world) (hb : fs_handle_base)
    (drv_seek : fs_handle -> Z -> Z -> drv drv_state Z) :
  preemption_enabled w = true ->
  h <> NULL ->
  whence = SEEK_SET \/ whence = SEEK_CUR \/ whence = SEEK_END ->
  hbs (dmem w) !! h = Some hb ->
  seek (file_ops_at (fops hb)) = Some drv_seek ->
  exists w',
    vfs_seek h off whence w
      = Some (fst (drv_seek h (to_off_t off) whence (dmem w)), w') /\
    emitted w w' = [EvShLock h; EvFileOp OpSeek h; EvShUnlock h].
Proof.
  intros Hp Hh Hw Hhb Hsk. apply null_test in Hh.
  assert (E : negb (whence =? SEEK_SET) && negb (whence =? SEEK_CUR)
              && negb (whence =? SEEK_END) = false).
  { destruct Hw as [-> | [-> | ->]]; rewrite Z.eqb_refl; cbn;
      rewrite ?andb_false_r; reflexivity. }
  destruct (drv_seek h (to_off_t off) whence (dmem w)) as [r m'] eqn:Hd.
  eexists. split.
  - unfold_vfs. rewrite Hp, Hh. cbn [negb]. rewrite E, Hhb, Hsk.
    world_simpl. rewrite Hd. reflexivity.
  - emitted_norm. reflexivity.
Qed.

(** C8. On a live handle, [vfs_read] returns [-EBADF] (BadDescriptor)
    without a driver call exactly when the driver has no [read], or
    [O_WRONLY] is set and [O_RDWR] is clear in the open-mode flags (so with
    both set the handle is readable); [vfs_write] does so exactly when the
    driver has no [write], or neither [O_WRONLY] nor [O_RDWR] is set. *)
Theorem read_write_bad_descriptor
    (h : fs_handle) (buf : nat) (n : Z) (w : world) (hb : fs_handle_base) :
  preemption_enabled w = true ->
  h <> NULL ->
  hbs (dmem w) !! h = Some hb ->
  (rejected (vfs_read h buf n w) (err BadDescriptor) w <->
   read (file_ops_at (fops hb)) = None \/
   (Z.land (fl_flags hb) O_WRONLY <> 0 /\ Z.land (fl_flags hb) O_RDWR = 0)) /\
  (rejected (vfs_write h buf n w) (err BadDescriptor) w <->
   write (file_ops_at (fops hb)) = None \/
   (Z.land (fl_flags hb) O_WRONLY = 0 /\ Z.land (fl_flags hb) O_RDWR = 0)).
Proof.
  intros Hp Hh Hhb. pose proof (null_test h Hh) as Hn.
  split; split.
  - intros (w' & Hrun & _ & Hdrv).
    destruct (read (file_ops_at (fops hb))) as [drv_read |] eqn:Hrd;
      [| now left].
    right.
    destruct (Z.eq_dec (Z.land (fl_flags hb) O_WRONLY) 0) as [Z1 | N1];
      [| destruct (Z.eq_dec (Z.land (fl_flags hb) O_RDWR) 0) as [Z2 | N2];
         [tauto |]].
    all: exfalso.
    all: destruct (vfs_read_calls_driver h buf n w hb drv_read Hp Hh Hhb Hrd)
           as (w2 & Hrun2 & Hev); [tauto |].
    all: rewrite Hrun in Hrun2; injection Hrun2 as _ <-.
    all: unfold none_of in Hdrv; rewrite Hev in Hdrv; discriminate.
  - intros Hc. exists w. split; [| unfold none_of; rewrite emitted_refl; auto].
    unfold_vfs. rewrite Hp, Hn. cbn [negb]. rewrite Hhb.
    destruct Hc as [-> | (N1 & Z2)]; [reflexivity |].
    apply nz_true in N1. apply nz_false in Z2. rewrite N1, Z2.
    destruct (read (file_ops_at (fops hb))); reflexivity.
  - intros (w' & Hrun & _ & Hdrv).
    destruct (write (file_ops_at (fops hb))) as [drv_write |] eqn:Hwr;
      [| now left].
    right.
    destruct (Z.eq_dec (Z.land (fl_flags hb) O_WRONLY) 0) as [Z1 | N1];
      [destruct (Z.eq_dec (Z.land (fl_flags hb) O_RDWR) 0) as [Z2 | N2];
         [tauto |] |].
    all: exfalso.
    all: destruct (vfs_write_calls_driver h buf n w hb drv_write Hp Hh Hhb Hwr)
           as (w2 & Hrun2 & Hev); [tauto |].
    all: rewrite Hrun in Hrun2; injection Hrun2 as _ <-.
    all: unfold none_of in Hdrv; rewrite Hev in Hdrv; discriminate.
  - intros Hc. exists w. split; [| unfold none_of; rewrite emitted_refl; auto].
    unfold_vfs. rewrite Hp, Hn. cbn [negb]. rewrite Hhb.
    destruct Hc as [-> | Hz]; [reflexivity |].
    apply land_lor_zero, nz_false in Hz. rewrite Hz.
    destruct (write (file_ops_at (fops hb))); reflexivity.
Qed.

(** ** The device-identifier allocator *)

(** A call returns the counter and leaves it one higher, modulo [2^32]. *)
Lemma nth_device_id_from (n : nat) (w : world) :
  0 <= next_device_id w < 2 ^ 32 ->
  nth_device_id n w =
    Some ((next_device_id w + Z.of_nat n) mod 2 ^ 32,
          with_next_device_id w
            ((next_device_id w + Z.of_nat n + 1) mod 2 ^ 32)).
Proof.
  revert w. induction n as [| n IH]; intros w Hr.
  - cbn [nth_device_id]. unfold vfs_get_new_device_id.
    rewrite Z.add_0_r, (Z.mod_small _ _ Hr). reflexivity.
  - cbn [nth_device_id]. unfold bind, vfs_get_new_device_id at 1.
    rewrite IH by (cbn; apply Z.mod_pos_bound; lia).
    unfold with_next_device_id. cbn.
    f_equal. f_equal.
    + rewrite Zplus_mod_idemp_l. f_equal. lia.
    + f_equal. rewrite <- Z.add_assoc, Zplus_mod_idemp_l. f_equal. lia.
Qed.

(** C9, as the code has it.  From boot, where the counter is 0, call number
    [n] of [vfs_get_new_device_id] returns [n] as long as [n < 2^32], so the
    first [2^32] identifiers are strictly increasing and none is handed
    out twice. *)
Theorem device_ids_count_up
    (x : gmap nat filesystem) (m : drv_mem drv_state) (n : nat) :
  Z.of_nat n < 2 ^ 32 ->
  (exists w', nth_device_id n (boot x m) = Some (Z.of_nat n, w')) /\
  (forall i : nat, (i < n)%nat ->
     exists a b w1 w2,
       nth_device_id i (boot x m) = Some (a, w1) /\
       nth_device_id n (boot x m) = Some (b, w2) /\
       a < b).
Proof.
  intros Hn.
  assert (R : 0 <= next_device_id (boot x m) < 2 ^ 32) by (cbn; lia).
  split.
  - eexists. rewrite (nth_device_id_from n _ R). cbn [boot next_device_id].
    rewrite Z.add_0_l, Z.mod_small by lia. reflexivity.
  - intros i Hi. do 4 eexists.
    rewrite !(nth_device_id_from _ _ R). cbn [boot next_device_id].
    rewrite !Z.add_0_l, !Z.mod_small by lia.
    repeat split. lia.
Qed.

End Properties.

(** * More of the dispatch layer *)

Section MoreProperties.
Context {abi : Abi} {K : Kernel}.

Ltac run_unfold :=
  unfold vfs_open, vfs_close, vfs_dup, vfs_read, vfs_write, vfs_seek,
    vfs_ioctl, vfs_fcntl, vfs_mkdir, vfs_rmdir, vfs_unlink,
    get_retained_fs_at, vfs_resolve, retain_obj, release_obj, get_ref_count,
    remove_all_mappings_of_handle,
    vfs_fs_exlock, vfs_fs_exunlock, vfs_shlock, vfs_shunlock, vfs_exlock,
    vfs_exunlock, call, log, deref, load_fs, store_fs, load_hb, store_hb,
    ASSERT, NO_TEST_ASSERT, is_preemption_enabled, bind, ret, panic in *.

Ltac w_simpl :=
  cbn [preemption_enabled fss dmem next_device_id trace with_fss with_dmem
       with_next_device_id with_trace with_hbs hbs dstate fst snd] in *.

Ltac emitted_explicit :=
  repeat match goal with
  | |- context [emitted ?w ?w'] =>
    erewrite (emitted_app w w')
      by (w_simpl; rewrite <- ?app_assoc; reflexivity)
  | H : context [emitted ?w ?w'] |- _ =>
    erewrite (emitted_app w w') in H
      by (w_simpl; rewrite <- ?app_assoc; reflexivity)
  end;
  cbn [app] in *.

Ltac run_cases :=
  run_unfold; w_simpl; repeat (case_match; simplify_eq); w_simpl.

(** X1. With preemption enabled and an absolute path, [vfs_open] with all
    the bits of [O_TMPFILE] among the flags and [O_ASYNC] not among them
    returns [-EOPNOTSUPP] and leaves the world as it was: nothing is looked
    up, retained or resolved. *)
Theorem open_tmpfile_is_not_supported
    (path : string) (flags mode : Z) (w : world) :
  preemption_enabled w = true ->
  is_absolute path = true ->
  Z.land flags O_ASYNC = 0 ->
  Z.land flags O_TMPFILE = O_TMPFILE ->
  vfs_open path flags mode w = Some ((- EOPNOTSUPP, None), w).
Proof.
  intros Hp Ha Hasync Htmp. apply nz_false in Hasync.
  apply Z.eqb_eq in Htmp.
  run_unfold. rewrite Hp, Ha, Hasync, Htmp. reflexivity.
Qed.

Lemma flags_accepted_open (flags mode : Z) :
  flags_accepted (DoOpen flags mode) ->
  nz (Z.land flags O_ASYNC) = false /\
  (Z.land flags O_TMPFILE =? O_TMPFILE) = false.
Proof.
  intros (H1 & H2). split; [now apply nz_false | now apply Z.eqb_neq].
Qed.

(** X2. When no mount matches the path, [vfs_open] (with flags it does
    not turn down), [vfs_mkdir], [vfs_rmdir] and [vfs_unlink] return
    [-ENOENT]; the lookup is the only call made, and no filesystem object
    and nothing a driver owns has changed. *)
Theorem no_mount_is_not_found (op : path_op) (path : string) (w : world) :
  preemption_enabled w = true ->
  is_absolute path = true ->
  flags_accepted op ->
  mountpoint_of path = None ->
  exists w',
    run_path_op op path w = Some (- ENOENT, w') /\
    emitted w w' = [EvLookup path] /\
    fss w' = fss w /\
    dmem w' = dmem w.
Proof.
  intros Hp Ha Hfl Hm.
  destruct op; cbn [run_path_op].
  1: apply flags_accepted_open in Hfl as (F1 & F2).
  all: eexists; split;
    [ run_unfold; w_simpl; rewrite Hp, Ha, ?F1, ?F2, Hm; reflexivity
    | split; [emitted_explicit; reflexivity | split; reflexivity] ].
Qed.


(** X3. On a read-write mount whose driver has the entry, [vfs_mkdir],
    [vfs_rmdir] and [vfs_unlink] return the resolver's status when it is not
    0, without calling the driver, and otherwise whatever the driver's entry
    returns for the resolved path; resolver and driver run between the
    lock and the unlock of the filesystem, and the reference count ends as
    it started. *)
Theorem dir_op_status
    (op : path_op) (path : string) (w : world) (f : fs_ptr)
    (fs_path : string) (x : filesystem) (g : vfs_path -> drv drv_state Z)
    (rrc : Z) (p : vfs_path) (m1 : drv_mem drv_state) :
  preemption_enabled w = true ->
  is_absolute path = true ->
  mountpoint_of path = Some (f, fs_path) ->
  fss w !! f = Some x ->
  Z.land (flags x) VFS_FS_RW <> 0 ->
  driver_entry op (fs_ops_at (fsops x)) = Some g ->
  resolve f fs_path (dmem w) = ((rrc, p), m1) ->
  exists w',
    run_path_op op path w
      = Some (if rrc =? 0 then fst (g p m1) else rrc, w') /\
    dmem w' = (if rrc =? 0 then snd (g p m1) else m1) /\
    emitted w w'
      = [EvLookup path; EvRetain f; EvFsExLock f; EvResolve f fs_path]
        ++ (if rrc =? 0 then [EvFsOp (fs_op_of op) f] else [])
        ++ [EvFsExUnlock f; EvRelease f] /\
    ref_count_at f w' = ref_count_at f w.
Proof.
  intros Hp Ha Hm Hf Hrw Hg Hres. apply nz_true in Hrw.
  destruct (g p m1) as [drc m2] eqn:Hdrv.
  destruct op; cbn [driver_entry] in Hg; [discriminate | | |].
  1: destruct (mkdir (fs_ops_at (fsops x))) as [g0 |] eqn:Hcap;
       [| discriminate]; cbn in Hg; injection Hg as <-.
  2: rename Hg into Hcap.
  3: rename Hg into Hcap.
  all: cbn [run_path_op fs_op_of fst snd].
  all: destruct (rrc =? 0) eqn:Hz.
  all: eexists; split;
    [ run_unfold; w_simpl; rewrite Hp, Ha, Hm; w_simpl; rewrite Hf; w_simpl;
      rewrite lookup_insert_eq; cbn [flags fsops]; rewrite Hrw, Hcap;
      cbn [negb]; w_simpl; rewrite Hres; w_simpl; rewrite Hz; w_simpl;
      rewrite ?Hdrv; w_simpl; rewrite lookup_insert_eq; reflexivity
    | split; [reflexivity |];
      split; [emitted_explicit; reflexivity |];
      unfold ref_count_at; w_simpl; rewrite lookup_insert_eq, Hf;
      cbn [ref_count]; lia ].
Qed.

(** X4. On a read-only mount, or when the driver lacks the entry,
    [vfs_mkdir], [vfs_rmdir] and [vfs_unlink] return ([-EROFS] on a
    read-only mount; else [-EPERM], or [-EROFS] for unlink) right after the
    lookup's retain, with no release: the filesystem's reference count is
    one higher than before the call. *)
Theorem dir_op_early_return_keeps_the_reference
    (op : path_op) (path : string) (w : world) (f : fs_ptr)
    (fs_path : string) (x : filesystem) :
  is_open op = false ->
  preemption_enabled w = true ->
  is_absolute path = true ->
  mountpoint_of path = Some (f, fs_path) ->
  fss w !! f = Some x ->
  Z.land (flags x) VFS_FS_RW = 0 \/
  driver_entry op (fs_ops_at (fsops x)) = None ->
  exists w',
    run_path_op op path w
      = Some (if Z.land (flags x) VFS_FS_RW =? 0 then - EROFS
              else missing_entry_status op, w') /\
    emitted w w' = [EvLookup path; EvRetain f] /\
    ref_count_at f w' = ref_count_at f w + 1.
Proof.
  intros Hop Hp Ha Hm Hf Hc.
  destruct op; [discriminate Hop | | |]; cbn [run_path_op missing_entry_status].
  all: unfold nz in *.
  all: destruct (Z.land (flags x) VFS_FS_RW =? 0) eqn:Hz.
  all: try (destruct Hc as [Hc | Hc]; [apply Z.eqb_eq in Hc; congruence |]).
  all: cbn [driver_entry] in *.
  all: try match goal with
       | H : option_map _ ?o = None |- _ =>
         destruct o eqn:Hcap; [discriminate H |]
       end.
  all: eexists; split;
    [ run_unfold; unfold nz; w_simpl; rewrite Hp, Ha, Hm; w_simpl;
      rewrite Hf; w_simpl; rewrite lookup_insert_eq; cbn [flags fsops];
      rewrite Hz; cbn [negb]; rewrite ?Hcap, ?Hc; reflexivity
    | split; [emitted_explicit; reflexivity |];
      unfold ref_count_at; w_simpl; rewrite lookup_insert_eq, Hf;
      reflexivity ].
Qed.


Ltac count_log :=
  unfold retains, releases;
  repeat first
    [ rewrite count_occ_cons_eq by reflexivity
    | rewrite count_occ_cons_neq by discriminate ];
  rewrite ?count_occ_nil.

Ltac check_log :=
  unfold none_of;
  cbn [fs_lock_discipline handle_lock_discipline forallb negb andb orb
       is_structural mode_of is_handle_lock_call is_fs_lock_call
       is_refcount_call];
  rewrite ?bool_decide_eq_true_2 by reflexivity;
  cbn [andb orb negb]; try reflexivity.


(** X6. Whatever way [vfs_read], [vfs_write], [vfs_seek], [vfs_ioctl] or
    [vfs_fcntl] returns, the driver was called only with the handle's lock
    held, shared for read and seek, exclusive for write, ioctl and fcntl, and
    the lock is free again at the return; no filesystem lock is touched,
    nothing is retained or released, and the filesystem objects are as they
    were. *)
Theorem handle_ops_keep_lock_discipline
    (op : handle_op) (h : fs_handle) (w w' : world) (r : Z) :
  run_handle_op op h w = Some (r, w') ->
  handle_lock_discipline None (emitted w w') = true /\
  none_of is_fs_lock_call (emitted w w') /\
  none_of is_refcount_call (emitted w w') /\
  fss w' = fss w.
Proof.
  intros Hrun.
  destruct op; cbn [run_handle_op] in Hrun.
  all: run_cases.
  all: try rewrite emitted_refl.
  all: emitted_explicit.
  all: repeat split; check_log.
Qed.


(** X7. On a live handle, [vfs_ioctl] returns [-ENOTTY] and [vfs_fcntl]
    returns [-EINVAL] when the driver lacks the entry, calling nothing;
    otherwise each returns what the driver's entry returns for the caller's
    arguments, called once under the exclusive handle lock, whatever the
    open-mode flags of the handle are. *)
Theorem ioctl_fcntl_dispatch
    (h : fs_handle) (w : world) (hb : fs_handle_base) :
  preemption_enabled w = true ->
  hbs (dmem w) !! h = Some hb ->
  (h <> NULL ->
   forall (request : Z) (argp : nat),
   exists w',
     vfs_ioctl h request argp w
       = Some (match ioctl (file_ops_at (fops hb)) with
               | Some g => fst (g h request argp (dmem w))
               | None => - ENOTTY
               end, w') /\
     emitted w w'
       = match ioctl (file_ops_at (fops hb)) with
         | Some _ => [EvExLock h; EvFileOp OpIoctl h; EvExUnlock h]
         | None => []
         end) /\
  (forall cmd arg : Z,
   exists w',
     vfs_fcntl h cmd arg w
       = Some (match fcntl (file_ops_at (fops hb)) with
               | Some g => fst (g h cmd arg (dmem w))
               | None => - EINVAL
               end, w') /\
     emitted w w'
       = match fcntl (file_ops_at (fops hb)) with
         | Some _ => [EvExLock h; EvFileOp OpFcntl h; EvExUnlock h]
         | None => []
         end).
Proof.
  intros Hp Hhb. split.
  - intros Hh request argp. apply null_test in Hh.
    destruct (ioctl (file_ops_at (fops hb))) as [g |] eqn:Hg.
    + destruct (g h request argp (dmem w)) as [r m] eqn:Hd.
      eexists. split.
      * run_unfold. rewrite Hp, Hh. cbn [negb]. rewrite Hhb, Hg. w_simpl.
        rewrite Hd. reflexivity.
      * emitted_explicit. reflexivity.
    + exists w. split; [| apply emitted_refl].
      run_unfold. rewrite Hp, Hh. cbn [negb]. rewrite Hhb, Hg. reflexivity.
  - intros cmd arg.
    destruct (fcntl (file_ops_at (fops hb))) as [g |] eqn:Hg.
    + destruct (g h cmd arg (dmem w)) as [r m] eqn:Hd.
      eexists. split.
      * run_unfold. rewrite Hp, Hhb, Hg. w_simpl. rewrite Hd. reflexivity.
      * emitted_explicit. reflexivity.
    + exists w. split; [| apply emitted_refl].
      run_unfold. rewrite Hp, Hhb, Hg. reflexivity.
Qed.


(** How [vfs_close] runs on a live handle whose filesystem has more than one
    reference. *)
Lemma vfs_close_run
    (h : fs_handle) (w : world) (hb : fs_handle_base) (x : filesystem) :
  h <> NULL ->
  hbs (dmem w) !! h = Some hb ->
  fss w !! fs hb = Some x ->
  1 < ref_count x ->
  exists w',
    vfs_close h w = Some (tt, w') /\
    trace w'
      = trace w ++ [EvUnmap h; EvFsOp OpClose (fs hb); EvRelease (fs hb)] /\
    dmem w' = snd (close (fs_ops_at (fsops x)) h (dmem w)) /\
    fss w'
      = <[fs hb := mk_filesystem (flags x) (fsops x) (ref_count x - 1)]>
          (fss w).
Proof.
  intros Hh Hhb Hx Hrc. apply null_test in Hh.
  destruct (close (fs_ops_at (fsops x)) h (dmem w)) as [u m] eqn:Hd.
  assert (E : (0 <? ref_count x - 1) = true) by (apply Z.ltb_lt; lia).
  eexists. split; [| split; [| split]].
  - run_unfold. rewrite Hh. cbn [negb]. rewrite Hhb. w_simpl. rewrite Hx.
    w_simpl. rewrite Hd. w_simpl. rewrite Hx. w_simpl.
    rewrite lookup_insert_eq. cbn [ref_count]. rewrite E. reflexivity.
  - w_simpl. rewrite <- !app_assoc. reflexivity.
  - reflexivity.
  - reflexivity.
Qed.

(** X8. On a live handle whose filesystem has more than one reference,
    [vfs_close] removes the handle's mappings, calls the driver's [close]
    and then releases the filesystem once: the count is one lower.  When the
    release would leave no reference, the closing assertion fails and there
    is no result. *)
Theorem close_releases_once
    (h : fs_handle) (w : world) (hb : fs_handle_base) (x : filesystem) :
  h <> NULL ->
  hbs (dmem w) !! h = Some hb ->
  fss w !! fs hb = Some x ->
  (1 < ref_count x ->
   exists w',
     vfs_close h w = Some (tt, w') /\
     emitted w w'
       = [EvUnmap h; EvFsOp OpClose (fs hb); EvRelease (fs hb)] /\
     dmem w' = snd (close (fs_ops_at (fsops x)) h (dmem w)) /\
     ref_count_at (fs hb) w' = ref_count x - 1) /\
  (ref_count x <= 1 -> vfs_close h w = None).
Proof.
  intros Hh Hhb Hx.
  split; intros Hrc.
  - destruct (vfs_close_run h w hb x Hh Hhb Hx Hrc)
      as (w' & Hrun & Htr & Hdm & Hfs).
    exists w'. split; [exact Hrun |]. split; [now apply emitted_app |].
    split; [exact Hdm |].
    unfold ref_count_at. rewrite Hfs, lookup_insert_eq. reflexivity.
  - apply null_test in Hh.
    destruct (close (fs_ops_at (fsops x)) h (dmem w)) as [u m] eqn:Hd.
    assert (E : (0 <? ref_count x - 1) = false) by (apply Z.ltb_ge; lia).
    run_unfold. rewrite Hh. cbn [negb]. rewrite Hhb. w_simpl. rewrite Hx.
    w_simpl. rewrite Hd. w_simpl. rewrite Hx. w_simpl.
    rewrite lookup_insert_eq. cbn [ref_count]. rewrite E. reflexivity.
Qed.

(** What a successful [vfs_open] went through and left behind. *)
Lemma vfs_open_success_inv
    (path : string) (fl mode : Z) (w w1 : world) (h : fs_handle)
    (f : fs_ptr) (fs_path : string) :
  vfs_open path fl mode w = Some ((0, Some h), w1) ->
  mountpoint_of path = Some (f, fs_path) ->
  exists (x : filesystem) (p : vfs_path) (m1 m : drv_mem drv_state)
         (hb0 : fs_handle_base),
    fss w !! f = Some x /\
    resolve f fs_path (dmem w) = ((0, p), m1) /\
    open (fs_ops_at (fsops x)) p fl mode m1 = ((0, Some h), m) /\
    hbs m !! h = Some hb0 /\
    trace w1
      = trace w ++ [EvLookup path; EvRetain f; EvFsExLock f;
                    EvResolve f fs_path; EvFsOp OpOpen f; EvFsExUnlock f] /\
    fss w1
      = <[f := mk_filesystem (flags x) (fsops x) (ref_count x + 1)]> (fss w) /\
    dmem w1
      = mk_drv_mem (dstate m)
          (<[h := mk_fs_handle_base (fs hb0) (fops hb0)
                    (if nz (Z.land fl O_CLOEXEC)
                     then Z.lor (fd_flags hb0) FD_CLOEXEC
                     else fd_flags hb0)
                    fl]> (hbs m)).
Proof.
  intros Hopen Hm.
  pose proof (err_nonzero InvalidArgument) as E1.
  pose proof (err_nonzero NotSupportedYet) as E2.
  pose proof (err_nonzero NotFound) as E3.
  unfold err in *. cbn [errno_of] in *.
  run_cases; try congruence.
  all: repeat match goal with
       | H : <[_ := _]> _ !! _ = Some _ |- _ =>
         rewrite lookup_insert_eq in H; simplify_eq
       end; cbn [fs fops fd_flags fl_flags fsops ref_count] in *.
  all: repeat match goal with
       | H : (_ =? 0) = true |- _ => apply Z.eqb_eq in H; subst
       end.
  all: do 5 eexists.
  all: repeat match goal with
       | |- _ /\ _ => split
       end; try eassumption; try reflexivity.
  all: try (rewrite <- !app_assoc; reflexivity).
  all: rewrite ?insert_insert_eq; reflexivity.
Qed.

(** X9. After a successful [vfs_open] on a mounted filesystem, closing
    the returned handle (whose header names that filesystem) succeeds and
    brings the reference count back to what it was before the open: over the
    two calls the filesystem is retained once and released once. *)
Theorem open_then_close_conserves_references
    (path : string) (fl mode : Z) (w w1 : world) (h : fs_handle)
    (f : fs_ptr) (fs_path : string) (hb : fs_handle_base) :
  vfs_open path fl mode w = Some ((0, Some h), w1) ->
  mountpoint_of path = Some (f, fs_path) ->
  h <> NULL ->
  hbs (dmem w1) !! h = Some hb ->
  fs hb = f ->
  0 < ref_count_at f w ->
  exists w2,
    vfs_close h w1 = Some (tt, w2) /\
    ref_count_at f w2 = ref_count_at f w /\
    retains f (emitted w w2) = 1%nat /\
    releases f (emitted w w2) = 1%nat.
Proof.
  intros Hopen Hm Hh Hhb Hfs Hpos.
  destruct (vfs_open_success_inv _ _ _ _ _ _ _ _ Hopen Hm)
    as (x & p & m1 & m & hb0 & Hx & _ & _ & _ & Htr1 & Hfss1 & _).
  unfold ref_count_at in Hpos |- *. rewrite Hx in Hpos |- *.
  subst f.
  destruct (vfs_close_run h w1 hb
              (mk_filesystem (flags x) (fsops x) (ref_count x + 1)) Hh Hhb)
    as (w2 & Hrun & Htr2 & _ & Hfss2).
  { rewrite Hfss1. apply lookup_insert_eq. }
  { cbn [ref_count]. lia. }
  exists w2. split; [exact Hrun |].
  split.
  - rewrite Hfss2, lookup_insert_eq. cbn [ref_count]. lia.
  - rewrite Htr1 in Htr2. rewrite <- app_assoc in Htr2. cbn [app] in Htr2.
    rewrite (emitted_app _ _ _ Htr2). split; count_log; reflexivity.
Qed.


(** What a successful [vfs_dup] went through and left behind. *)
Lemma vfs_dup_success_inv
    (h d : fs_handle) (w w1 : world) :
  vfs_dup h w = Some ((0, Some d), w1) ->
  exists (hb : fs_handle_base) (x : filesystem) (m : drv_mem drv_state)
         (db hb2 : fs_handle_base) (x2 : filesystem),
    d <> NULL /\
    hbs (dmem w) !! h = Some hb /\
    fss w !! fs hb = Some x /\
    dup (fs_ops_at (fsops x)) h (dmem w) = ((0, Some d), m) /\
    hbs m !! d = Some db /\
    hbs (dmem w1) !! h = Some hb2 /\
    fss w !! fs hb2 = Some x2 /\
    trace w1 = trace w ++ [EvFsOp OpDup (fs hb); EvRetain (fs hb2)] /\
    fss w1
      = <[fs hb2 := mk_filesystem (flags x2) (fsops x2) (ref_count x2 + 1)]>
          (fss w) /\
    dmem w1
      = mk_drv_mem (dstate m)
          (<[d := mk_fs_handle_base (fs db) (fops db) 0 (fl_flags db)]>
             (hbs m)).
Proof.
  intros Hdup.
  run_cases.
  all: repeat match goal with
       | H : nz _ = false |- _ => apply nz_false in H; subst
       | H : negb (_ =? _)%nat = true |- _ =>
         apply negb_true_iff, Nat.eqb_neq in H
       end.
  all: try (exfalso; pose proof (err_nonzero BadDescriptor) as E;
            unfold err in E; cbn [errno_of] in E; congruence).
  all: do 6 eexists.
  all: repeat match goal with
       | |- _ /\ _ => split
       end; try eassumption; try reflexivity.
  all: rewrite <- !app_assoc; reflexivity.
Qed.


(** X10. After a successful [vfs_dup], closing the duplicate (whose header
    names the original's filesystem) succeeds and brings the reference
    count back to what it was before the dup. *)
Theorem dup_then_close_conserves_references
    (h d : fs_handle) (w w1 : world) (hbh db : fs_handle_base) :
  vfs_dup h w = Some ((0, Some d), w1) ->
  hbs (dmem w1) !! h = Some hbh ->
  hbs (dmem w1) !! d = Some db ->
  fs db = fs hbh ->
  0 < ref_count_at (fs hbh) w ->
  exists w2,
    vfs_close d w1 = Some (tt, w2) /\
    ref_count_at (fs hbh) w2 = ref_count_at (fs hbh) w /\
    retains (fs hbh) (emitted w w2) = 1%nat /\
    releases (fs hbh) (emitted w w2) = 1%nat.
Proof.
  intros Hdup Hh Hd Hfs Hpos.
  destruct (vfs_dup_success_inv _ _ _ _ Hdup)
    as (hb & x & m & db0 & hb2 & x2 & Hnn & _ & _ & _ & _ & Hh2 & Hx2
        & Htr1 & Hfss1 & _).
  rewrite Hh in Hh2. injection Hh2 as <-.
  unfold ref_count_at in Hpos |- *. rewrite Hx2 in Hpos |- *.
  destruct (vfs_close_run d w1 db
              (mk_filesystem (flags x2) (fsops x2) (ref_count x2 + 1))
              Hnn Hd)
    as (w2 & Hrun & Htr2 & _ & Hfss2).
  { rewrite Hfs, Hfss1. apply lookup_insert_eq. }
  { cbn [ref_count]. lia. }
  exists w2. split; [exact Hrun |].
  split.
  - rewrite Hfss2, Hfs, lookup_insert_eq. cbn [ref_count]. lia.
  - rewrite Htr1 in Htr2. rewrite <- app_assoc in Htr2. cbn [app] in Htr2.
    rewrite (emitted_app _ _ _ Htr2), Hfs.
    split; count_log; reflexivity.
Qed.

(** X11. A successful [vfs_dup] writes one field: the duplicate's
    descriptor flags, set to 0.  Every other handle, the original included
    when the driver returned a new handle, is as the driver's [dup] left it,
    and so are the duplicate's other fields. *)
Theorem dup_changes_only_the_duplicate
    (h d : fs_handle) (w w1 : world) (hb : fs_handle_base) (x : filesystem) :
  hbs (dmem w) !! h = Some hb ->
  fss w !! fs hb = Some x ->
  vfs_dup h w = Some ((0, Some d), w1) ->
  let m := snd (dup (fs_ops_at (fsops x)) h (dmem w)) in
  (forall h' : fs_handle, h' <> d -> hbs (dmem w1) !! h' = hbs m !! h') /\
  (exists db : fs_handle_base,
     hbs m !! d = Some db /\
     hbs (dmem w1) !! d
       = Some (mk_fs_handle_base (fs db) (fops db) 0 (fl_flags db))) /\
  dstate (dmem w1) = dstate m.
Proof.
  intros Hhb Hx Hdup m.
  destruct (vfs_dup_success_inv _ _ _ _ Hdup)
    as (hb' & x' & m' & db & hb2 & x2 & _ & Hhb' & Hx' & Hdrv & Hdb & _ & _
        & _ & _ & Hdm).
  rewrite Hhb in Hhb'. injection Hhb' as <-.
  rewrite Hx in Hx'. injection Hx' as <-.
  subst m. rewrite Hdrv, Hdm. cbn [snd hbs dstate].
  split; [| split].
  - intros h' Hne. apply lookup_insert_ne. congruence.
  - exists db. split; [exact Hdb | apply lookup_insert_eq].
  - reflexivity.
Qed.

(** X12. A successful [vfs_open] went through the resolver and the
    driver's [open] with status 0, and of the handles it changed only the new
    one: its open-mode flags are the [flags] argument, its descriptor flags
    are those the driver set, with [FD_CLOEXEC] added when [O_CLOEXEC] was
    asked and left as they were otherwise; filesystem and operation table
    are as the driver set them. *)
Theorem open_changes_only_the_new_handle
    (path : string) (fl mode : Z) (w w1 : world) (h : fs_handle)
    (f : fs_ptr) (fs_path : string) :
  vfs_open path fl mode w = Some ((0, Some h), w1) ->
  mountpoint_of path = Some (f, fs_path) ->
  exists (x : filesystem) (p : vfs_path) (m1 m : drv_mem drv_state)
         (hb0 : fs_handle_base),
    fss w !! f = Some x /\
    resolve f fs_path (dmem w) = ((0, p), m1) /\
    open (fs_ops_at (fsops x)) p fl mode m1 = ((0, Some h), m) /\
    hbs m !! h = Some hb0 /\
    hbs (dmem w1) !! h
      = Some (mk_fs_handle_base (fs hb0) (fops hb0)
                (if Z.land fl O_CLOEXEC =? 0 then fd_flags hb0
                 else Z.lor (fd_flags hb0) FD_CLOEXEC)
                fl) /\
    (forall h' : fs_handle, h' <> h -> hbs (dmem w1) !! h' = hbs m !! h') /\
    dstate (dmem w1) = dstate m.
Proof.
  intros Hopen Hm.
  destruct (vfs_open_success_inv _ _ _ _ _ _ _ _ Hopen Hm)
    as (x & p & m1 & m & hb0 & Hx & Hres & Hdrv & Hhb0 & _ & _ & Hdm).
  exists x, p, m1, m, hb0.
  repeat match goal with |- _ /\ _ => split end; try assumption.
  - rewrite Hdm. cbn [hbs]. rewrite lookup_insert_eq. unfold nz.
    destruct (Z.land fl O_CLOEXEC =? 0); reflexivity.
  - intros h' Hne. rewrite Hdm. cbn [hbs]. apply lookup_insert_ne. congruence.
  - rewrite Hdm. reflexivity.
Qed.

(** X13. From any state of the [u32] counter, two calls of
    [vfs_get_new_device_id] return the same identifier exactly when the
    number of calls between them is a multiple of [2^32]; every identifier
    and the counter stay below [2^32]. *)
Theorem device_ids_repeat_only_after_a_full_turn
    (w : world) (i j : nat) :
  0 <= next_device_id w < 2 ^ 32 ->
  (i < j)%nat ->
  exists a b wa wb,
    nth_device_id i w = Some (a, wa) /\
    nth_device_id j w = Some (b, wb) /\
    0 <= a < 2 ^ 32 /\
    0 <= next_device_id wa < 2 ^ 32 /\
    (a = b <-> (Z.of_nat j - Z.of_nat i) mod 2 ^ 32 = 0).
Proof.
  intros Hr Hij.
  do 4 eexists.
  rewrite !(nth_device_id_from _ _ Hr).
  split; [reflexivity |]. split; [reflexivity |].
  split; [apply Z.mod_pos_bound; lia |].
  split; [cbn [next_device_id with_next_device_id];
          apply Z.mod_pos_bound; lia |].
  set (c := next_device_id w).
  split; intros E.
  - assert (D : ((c + Z.of_nat j) - (c + Z.of_nat i)) mod 2 ^ 32 = 0).
    { rewrite Zminus_mod, E, Z.sub_diag. reflexivity. }
    rewrite <- D. f_equal. lia.
  - replace (c + Z.of_nat j)
      with ((c + Z.of_nat i) + (Z.of_nat j - Z.of_nat i)) by lia.
    rewrite (Zplus_mod (c + Z.of_nat i) (Z.of_nat j - Z.of_nat i)), E.
    rewrite Z.add_0_r, Z.mod_mod by lia. reflexivity.
Qed.


(** X14. When the lookup succeeded and the resolver fails, [vfs_open]
    returns the resolver's status without calling the driver; when the
    driver's [open] fails, it returns the driver's status and what the
    driver left in the out-parameter.  Both ways the filesystem lock is
    released and then the reference, so the count ends as it started. *)
Theorem open_failure_restores_the_count
    (path : string) (fl mode : Z) (w : world) (f : fs_ptr)
    (fs_path : string) (x : filesystem)
    (rrc : Z) (p : vfs_path) (m1 : drv_mem drv_state) :
  preemption_enabled w = true ->
  is_absolute path = true ->
  flags_accepted (DoOpen fl mode) ->
  mountpoint_of path = Some (f, fs_path) ->
  fss w !! f = Some x ->
  resolve f fs_path (dmem w) = ((rrc, p), m1) ->
  (rrc <> 0 ->
   exists w',
     vfs_open path fl mode w = Some ((rrc, None), w') /\
     emitted w w'
       = [EvLookup path; EvRetain f; EvFsExLock f; EvResolve f fs_path;
          EvFsExUnlock f; EvRelease f] /\
     ref_count_at f w' = ref_count_at f w) /\
  (rrc = 0 ->
   forall (drc : Z) (out : option fs_handle) (m2 : drv_mem drv_state),
     open (fs_ops_at (fsops x)) p fl mode m1 = ((drc, out), m2) ->
     drc <> 0 ->
     exists w',
       vfs_open path fl mode w = Some ((drc, out), w') /\
       emitted w w'
         = [EvLookup path; EvRetain f; EvFsExLock f; EvResolve f fs_path;
            EvFsOp OpOpen f; EvFsExUnlock f; EvRelease f] /\
       dmem w' = m2 /\
       ref_count_at f w' = ref_count_at f w).
Proof.
  intros Hp Ha Hfl Hm Hf Hres.
  apply flags_accepted_open in Hfl as (F1 & F2).
  split.
  - intros Hrrc. apply Z.eqb_neq in Hrrc.
    eexists. split; [| split].
    + run_unfold. w_simpl. rewrite Hp, Ha, F1, F2, Hm. w_simpl. rewrite Hf.
      w_simpl. rewrite Hres. w_simpl. rewrite Hrrc. w_simpl. rewrite Hrrc.
      w_simpl. rewrite lookup_insert_eq. reflexivity.
    + emitted_explicit. reflexivity.
    + unfold ref_count_at. w_simpl. rewrite lookup_insert_eq, Hf.
      cbn [ref_count]. lia.
  - intros -> drc out m2 Hdrv Hdrc. apply Z.eqb_neq in Hdrc.
    eexists. split; [| split; [| split]].
    + run_unfold. w_simpl. rewrite Hp, Ha, F1, F2, Hm. w_simpl. rewrite Hf.
      w_simpl. rewrite Hres. w_simpl. cbn [Z.eqb]. w_simpl.
      rewrite lookup_insert_eq. cbn [fsops]. w_simpl. rewrite Hdrv. w_simpl.
      rewrite Hdrc. w_simpl. rewrite lookup_insert_eq. reflexivity.
    + emitted_explicit. reflexivity.
    + reflexivity.
    + unfold ref_count_at. w_simpl. rewrite lookup_insert_eq, Hf.
      cbn [ref_count]. lia.
Qed.

End MoreProperties.

(** ** Text-mode entries and far pointers *)

Lemma lor_shiftl_low (a b n : Z) :
  0 <= n -> 0 <= a < 2 ^ n -> Z.lor a (Z.shiftl b n) = a + b * 2 ^ n.
Proof.
  intros Hn Ha. rewrite Z.shiftl_mul_pow2 by exact Hn.
  symmetry. apply Z.add_nocarry_lor.
  rewrite <- Z.shiftl_mul_pow2 by exact Hn.
  apply Z.bits_inj'. intros i Hi. rewrite Z.land_spec, Z.bits_0.
  destruct (Z.lt_ge_cases i n) as [Hlt | Hge].
  - rewrite Z.shiftl_spec_low by exact Hlt. apply andb_false_r.
  - replace a with (Z.land a (Z.ones n)).
    + rewrite Z.land_spec, Z.ones_spec_high by lia.
      rewrite andb_false_r. reflexivity.
    + rewrite Z.land_ones by exact Hn. apply Z.mod_small. exact Ha.
Qed.

Lemma unpack_low (a b n : Z) :
  0 <= n -> 0 <= a < 2 ^ n ->
  Z.land (a + b * 2 ^ n) (Z.ones n) = a /\ Z.shiftr (a + b * 2 ^ n) n = b.
Proof.
  intros Hn Ha. assert (0 < 2 ^ n) by (apply Z.pow_pos_nonneg; lia).
  split.
  - rewrite Z.land_ones, Z.mod_add, Z.mod_small by lia. reflexivity.
  - rewrite Z.shiftr_div_pow2, Z.div_add, Z.div_small by lia. lia.
Qed.

(** X15. For a foreground and a background below 16, [make_color]
    gives a byte whose low four bits are the foreground and whose high four
    bits are the background. *)
Theorem make_color_packs_two_colours (fg bg : Z) :
  0 <= fg < 16 ->
  0 <= bg < 16 ->
  Z.land (make_color fg bg) 15 = fg /\
  Z.shiftr (make_color fg bg) 4 = bg /\
  0 <= make_color fg bg < 256.
Proof.
  intros Hf Hb. unfold make_color.
  rewrite lor_shiftl_low by (cbn; lia).
  destruct (unpack_low fg bg 4) as (L & R); [lia | cbn; lia |].
  change (Z.ones 4) with 15 in L. change (2 ^ 4) with 16 in *.
  repeat split; [exact L | exact R | lia | lia].
Qed.

(** X16. For a character and a colour below 256, [make_vgaentry]
    gives a 16-bit entry whose low byte is the character and whose high byte
    is the colour. *)
Theorem make_vgaentry_packs_char_and_colour (c color : Z) :
  0 <= c < 256 ->
  0 <= color < 256 ->
  Z.land (make_vgaentry c color) 255 = c /\
  Z.shiftr (make_vgaentry c color) 8 = color /\
  0 <= make_vgaentry c color < 2 ^ 16.
Proof.
  intros Hc Hcol. unfold make_vgaentry, to_u16.
  rewrite !Z.mod_small by lia.
  rewrite lor_shiftl_low by (cbn; lia).
  destruct (unpack_low c color 8) as (L & R); [lia | cbn; lia |].
  change (Z.ones 8) with 255 in L. change (2 ^ 8) with 256 in *.
  repeat split; [exact L | exact R | lia | lia].
Qed.

(** X17. For a negative character (a [char] above 127 where
    [char] is signed), the cast to [u16] extends the sign: the colour byte of
    the entry is [0xFF] whatever colour was given, and the low byte is the
    character's code. *)
Theorem make_vgaentry_negative_char_floods_the_colour (c color : Z) :
  - 128 <= c < 0 ->
  0 <= color < 256 ->
  Z.land (make_vgaentry c color) 255 = c + 256 /\
  Z.shiftr (make_vgaentry c color) 8 = 255.
Proof.
  intros Hc Hcol. unfold make_vgaentry, to_u16.
  rewrite (Z.mod_small color) by lia.
  assert (E : c mod 2 ^ 16 = (c + 256) + 255 * 2 ^ 8).
  { symmetry. apply Z.mod_unique with (q := - 1); lia. }
  rewrite E, <- lor_shiftl_low by (cbn; lia).
  rewrite <- Z.lor_assoc, <- Z.shiftl_lor.
  assert (F : Z.lor 255 color = 255).
  { destruct (Z.eq_dec color 0) as [-> | Hnz]; [reflexivity |].
    rewrite Z.lor_comm. change 255 with (Z.ones 8).
    apply Z.lor_ones_low; [lia |].
    apply Z.log2_lt_pow2; cbn; lia. }
  rewrite F, lor_shiftl_low by (cbn; lia).
  destruct (unpack_low (c + 256) 255 8) as (L & R); [lia | cbn; lia |].
  change (Z.ones 8) with 255 in L.
  split; [exact L | exact R].
Qed.

Lemma get_flat_ptr_linear (fp : far_ptr) :
  far_ptr_ok fp -> get_flat_ptr fp = off fp + 16 * seg fp.
Proof.
  intros (Ho & Hs). unfold get_flat_ptr, to_u32.
  rewrite (Z.mod_small (off fp)), (Z.mod_small (seg fp)) by lia.
  rewrite (Z.mod_small (seg fp * 16)) by lia.
  rewrite Z.mod_small by lia. lia.
Qed.

(** X18. The flat addresses of far pointers are exactly the numbers from
    0 to [0x10FFEF]: the sum never wraps in [u32], and every address up to
    that bound is the address of some far pointer. *)
Theorem get_flat_ptr_range (a : Z) :
  (exists fp : far_ptr, far_ptr_ok fp /\ get_flat_ptr fp = a) <->
  0 <= a <= 1114095.
Proof.
  split.
  - intros (fp & Hok & <-). rewrite get_flat_ptr_linear by exact Hok.
    destruct Hok as (Ho & Hs). lia.
  - intros Ha.
    destruct (Z.lt_ge_cases a (2 ^ 20)) as [Hlow | Hhigh].
    + exists (mk_far_ptr (a mod 16) (a / 16)).
      assert (Hok : far_ptr_ok (mk_far_ptr (a mod 16) (a / 16))).
      { unfold far_ptr_ok. cbn [off seg].
        pose proof (Z.mod_pos_bound a 16 ltac:(lia)).
        assert (0 <= a / 16) by (apply Z.div_pos; lia).
        assert (a / 16 < 2 ^ 16) by (apply Z.div_lt_upper_bound; lia).
        lia. }
      split; [exact Hok |]. rewrite get_flat_ptr_linear by exact Hok.
      cbn [off seg]. pose proof (Z.div_mod a 16 ltac:(lia)). lia.
    + exists (mk_far_ptr (a - 1048560) 65535).
      assert (Hok : far_ptr_ok (mk_far_ptr (a - 1048560) 65535)).
      { unfold far_ptr_ok. cbn [off seg]. lia. }
      split; [exact Hok |]. rewrite get_flat_ptr_linear by exact Hok.
      cbn [off seg]. lia.
Qed.

(** X19. Far pointers alias: one segment more and sixteen bytes of
    offset less give the same flat address. *)
Theorem get_flat_ptr_aliases (fp : far_ptr) :
  far_ptr_ok fp ->
  16 <= off fp ->
  seg fp < 65535 ->
  far_ptr_ok (mk_far_ptr (off fp - 16) (seg fp + 1)) /\
  get_flat_ptr (mk_far_ptr (off fp - 16) (seg fp + 1)) = get_flat_ptr fp.
Proof.
  intros Hok Ho Hs.
  assert (Hok' : far_ptr_ok (mk_far_ptr (off fp - 16) (seg fp + 1))).
  { destruct Hok as (H1 & H2). unfold far_ptr_ok. cbn [off seg]. lia. }
  split; [exact Hok' |].
  rewrite !get_flat_ptr_linear by assumption. cbn [off seg]. lia.
Qed.

(** ** Kernel messages *)

Section PrintkProperties.
Import Printk.
Context {conv : Conversions}.

Lemma plain_app (t s : string) :
  plain (t ++ s)%string = plain t && plain s.
Proof.
  induction t as [| c t IH]; [reflexivity |].
  change (String c t ++ s)%string with (String c (t ++ s)).
  cbn [plain]. rewrite IH. apply andb_assoc.
Qed.

Lemma append_empty_r (t : string) : (t ++ "")%string = t.
Proof.
  induction t as [| c t IH]; [reflexivity |].
  change (String c t ++ "")%string with (String c (t ++ "")).
  now rewrite IH.
Qed.

Lemma loop_plain_prefix (t s : string) (args : list va_value) :
  plain t = true ->
  vprintk_loop (t ++ s)%string args = print_string t (vprintk_loop s args).
Proof.
  induction t as [| c t IH]; intros Hpl.
  - change ("" ++ s)%string with s.
    destruct (vprintk_loop s args); reflexivity.
  - cbn [plain] in Hpl. apply andb_prop in Hpl as (Hc & Ht).
    change (String c t ++ s)%string with (String c (t ++ s)).
    cbn [vprintk_loop]. rewrite Hc, (IH Ht).
    unfold term_write_char, print_string.
    destruct (vprintk_loop s args); reflexivity.
Qed.

(** X20. [vprintk] writes [[kernel] ] and then every character before
    the first ['%'] as it is; a format without ['%'] is printed whole, whatever
    the arguments. *)
Theorem plain_text_is_printed_verbatim
    (t s : string) (args : list va_value) :
  plain t = true ->
  vprintk t args = Some ("[kernel] " ++ t)%string /\
  vprintk (t ++ s) args
    = print_string "[kernel] " (print_string t (vprintk_loop s args)).
Proof.
  intros Hpl. unfold vprintk. split.
  - rewrite <- (append_empty_r t) at 1.
    rewrite loop_plain_prefix by exact Hpl.
    cbn [vprintk_loop print_string option_map].
    rewrite append_empty_r. reflexivity.
  - rewrite loop_plain_prefix by exact Hpl. reflexivity.
Qed.

(** X21. [%%] does not print a percent sign: the second ['%'] is read
    again as the start of a directive, so after plain text [%%s] behaves as
    [%s]; a format that ends in ['%'] or in [%%] moves the pointer past the
    terminating NUL and has no defined result. *)
Theorem percent_is_not_escaped
    (t : string) (args : list va_value) :
  plain t = true ->
  vprintk (t ++ "%") args = None /\
  vprintk (t ++ "%%") args = None /\
  (forall s : string,
     vprintk (t ++ "%%" ++ s) args = vprintk (t ++ "%" ++ s) args).
Proof.
  intros Hpl. unfold vprintk.
  split; [| split; [| intros s]].
  - rewrite (loop_plain_prefix t "%" args Hpl). reflexivity.
  - rewrite (loop_plain_prefix t "%%" args Hpl). reflexivity.
  - rewrite (loop_plain_prefix t ("%%" ++ s) args Hpl).
    rewrite (loop_plain_prefix t ("%" ++ s) args Hpl).
    reflexivity.
Qed.

Lemma va_arg32_more (args more rest : list va_value) (v : Z) :
  va_arg32 args = Some (v, rest) ->
  va_arg32 (args ++ more) = Some (v, rest ++ more).
Proof. destruct args as [| [z | z | s] args]; intros [= <- <-]; reflexivity. Qed.

Lemma va_arg64_more (args more rest : list va_value) (v : Z) :
  va_arg64 args = Some (v, rest) ->
  va_arg64 (args ++ more) = Some (v, rest ++ more).
Proof. destruct args as [| [z | z | s] args]; intros [= <- <-]; reflexivity. Qed.

Lemma va_arg_str_more (args more rest : list va_value) (v : string) :
  va_arg_str args = Some (v, rest) ->
  va_arg_str (args ++ more) = Some (v, rest ++ more).
Proof. destruct args as [| [z | z | s] args]; intros [= <- <-]; reflexivity. Qed.

Lemma term_write_char_some (c : ascii) (k : option string) (out : string) :
  term_write_char c k = Some out -> exists o, k = Some o /\ out = String c o.
Proof. destruct k; intros [= <-]; eauto. Qed.

Lemma print_string_some (s : string) (k : option string) (out : string) :
  print_string s k = Some out -> exists o, k = Some o /\ out = (s ++ o)%string.
Proof. destruct k; intros [= <-]; eauto. Qed.

Lemma loop_more_args (n : nat) :
  forall (ptr : string) (args more : list va_value) (out : string),
    (String.length ptr <= n)%nat ->
    vprintk_loop ptr args = Some out ->
    vprintk_loop ptr (args ++ more) = Some out.
Proof.
  induction n as [| n IH]; intros ptr args more out Hlen Hrun.
  - destruct ptr; [exact Hrun | cbn in Hlen; lia].
  - destruct ptr as [| c rest]; [exact Hrun |].
    cbn [String.length] in Hlen. cbn [vprintk_loop] in Hrun |- *.
    repeat match goal with
    | H : context [match ?s with EmptyString => _ | String _ _ => _ end] |- _ =>
      is_var s; destruct s; cbn [String.length] in Hlen; try discriminate H
    | H : context [if ?b then _ else _] |- _ => destruct b
    | H : context [match ?o with Some _ => _ | None => _ end] |- _ =>
      let E := fresh "E" in
      destruct o as [[? ?] |] eqn:E; [| discriminate H];
      first [ rewrite (va_arg32_more _ more _ _ E)
            | rewrite (va_arg64_more _ more _ _ E)
            | rewrite (va_arg_str_more _ more _ _ E) ]
    end.
    all: repeat match goal with
         | H : term_write_char _ _ = Some _ |- _ =>
           apply term_write_char_some in H as (? & H & ->)
         | H : print_string _ _ = Some _ |- _ =>
           apply print_string_some in H as (? & H & ->)
         end.
    all: try discriminate.
    all: erewrite IH by (try eassumption; cbn [String.length]; lia); reflexivity.
Qed.

(** X22. Arguments are taken from the front, one per directive that
    prints a value: when a call is defined, the same call with more
    arguments after them writes the same text. *)
Theorem arguments_left_over_are_ignored
    (fmt : string) (args more : list va_value) (out : string) :
  vprintk fmt args = Some out ->
  vprintk fmt (args ++ more) = Some out.
Proof.
  unfold vprintk. intros H.
  apply print_string_some in H as (o & H & ->).
  rewrite (loop_more_args _ fmt args more o (le_n _) H). reflexivity.
Qed.


(** X23. After plain text, a ['%'] followed by a character without
    meaning is written back with that character; [%l] followed by anything
    but [l], and [%ll] followed by anything but [u], [i], [d], print
    nothing, take no argument and swallow that character. *)
Theorem unsupported_directives_print_no_value
    (t s : string) (c : ascii) (args : list va_value) :
  plain t = true ->
  (known_directive c = false ->
   vprintk (t ++ String "%" (String c s)) args
     = print_string "[kernel] "
         (print_string t
            (term_write_char "%" (term_write_char c (vprintk_loop s args))))) /\
  ((c =? "l")%char = false ->
   vprintk (t ++ String "%" (String "l" (String c s))) args
     = vprintk (t ++ s) args) /\
  ((c =? "u")%char || (c =? "i")%char || (c =? "d")%char = false ->
   vprintk (t ++ String "%" (String "l" (String "l" (String c s)))) args
     = vprintk (t ++ s) args).
Proof.
  intros Hpl. unfold vprintk.
  rewrite !(loop_plain_prefix t _ args Hpl).
  split; [| split].
  - unfold known_directive. intros Hk.
    repeat (apply orb_false_elim in Hk as (Hk & ?)).
    cbn [vprintk_loop]. cbn [Ascii.eqb Bool.eqb negb].
    repeat match goal with H : (_ =? _)%char = false |- _ => rewrite H end.
    cbn [orb]. reflexivity.
  - intros Hl. cbn [vprintk_loop]. cbn [Ascii.eqb Bool.eqb negb].
    rewrite Hl. reflexivity.
  - intros Hk.
    repeat (apply orb_false_elim in Hk as (Hk & ?)).
    cbn [vprintk_loop]. cbn [Ascii.eqb Bool.eqb negb].
    repeat match goal with H : (_ =? _)%char = false |- _ => rewrite H end.
    cbn [orb]. reflexivity.
Qed.

End PrintkProperties.

(** * Runs on the small kernel *)

Import Toy.

(** On the read-only mount [/ro]. *)
Lemma read_only_mount_is_rejected_witness :
  Z.land (flags (mk_filesystem 0 0%nat 1)) VFS_FS_RW = 0 /\
  rejected (vfs_mkdir "/ro/a" 0 w0) (err ReadOnlyFilesystem) w0 /\
  rejected (vfs_rmdir "/ro/a" w0) (err ReadOnlyFilesystem) w0 /\
  rejected (vfs_unlink "/ro/a" w0) (err ReadOnlyFilesystem) w0.
Proof.
  split; [reflexivity |].
  apply (read_only_mount_is_rejected "/ro/a" 0 w0 2%nat "/a"
           (mk_filesystem 0 0%nat 1)); reflexivity.
Defined.

(** On [/dev], read-write, whose driver has none of the three operations. *)
Lemma missing_capability_is_rejected_witness :
  rejected (vfs_unlink "/dev/a" w0) (err ReadOnlyFilesystem) w0 /\
  rejected (vfs_mkdir "/dev/a" 0 w0) (err PermissionDenied) w0 /\
  rejected (vfs_rmdir "/dev/a" w0) (err PermissionDenied) w0.
Proof.
  destruct (missing_capability_is_rejected "/dev/a" 0 w0 3%nat "/a"
              (mk_filesystem 1 1%nat 1)) as (U & M & R);
    [reflexivity | reflexivity | reflexivity | reflexivity | discriminate |].
  split; [apply U; reflexivity |].
  split; [apply M; reflexivity | apply R; reflexivity].
Defined.

(** An unlink the driver refuses: retained once, released once. *)
Lemma reference_released_once_past_resolver_witness :
  run_path_op DoUnlink "/denied" w0 = Some (- 13, w_unlink_denied) /\
  retains 1%nat (emitted w0 w_unlink_denied) = 1%nat /\
  releases 1%nat (emitted w0 w_unlink_denied) = 1%nat /\
  ref_count_at 1%nat w_unlink_denied = ref_count_at 1%nat w0 + 0.
Proof.
  split; [reflexivity |].
  apply (reference_released_once_past_resolver
           DoUnlink "/denied" w0 w_unlink_denied (- 13) 1%nat "/denied").
  - reflexivity.
  - reflexivity.
  - cbv. tauto.
Defined.

(** C1 as stated fails: a successful [vfs_open] on ["/a"] looked the
    filesystem up, retained it, and returns without any release; its
    reference count stays one higher, for the handle. *)
Lemma open_success_keeps_the_reference :
  mountpoint_of "/a" = Some (1%nat, "/a"%string) /\
  run_path_op (DoOpen 0 0) "/a" w0 = Some (0, w_open) /\
  retains 1%nat (emitted w0 w_open) = 1%nat /\
  releases 1%nat (emitted w0 w_open) = 0%nat /\
  ref_count_at 1%nat w_open = ref_count_at 1%nat w0 + 1.
Proof. repeat split. Qed.

(** The slip next to it: [vfs_mkdir] on the read-only mount returns
    [-EROFS] after the lookup's retain and without a release. *)
Lemma mkdir_on_read_only_mount_leaks :
  vfs_mkdir "/ro/a" 0 w0 = Some (- 30, w_mkdir_ro) /\
  emitted w0 w_mkdir_ro = [EvLookup "/ro/a"; EvRetain 2%nat] /\
  ref_count_at 2%nat w_mkdir_ro = ref_count_at 2%nat w0 + 1.
Proof. repeat split. Qed.

(** [O_ASYNC] alone, on a path that could be opened. *)
Lemma open_async_is_invalid_argument_witness :
  Z.land 0x2000 O_ASYNC <> 0 /\
  vfs_open "/a" 0x2000 0 w0 = Some ((err InvalidArgument, None), w0).
Proof.
  split; [discriminate |].
  apply (open_async_is_invalid_argument "/a" 0x2000 0 w0);
    [reflexivity | reflexivity | discriminate].
Defined.

(** C2 as stated fails: with [O_ASYNC] alone, [vfs_open] returns [-EINVAL],
    the status of InvalidArgument, which is not that of NotSupportedYet. *)
Lemma open_async_is_not_NotSupportedYet :
  vfs_open "/a" O_ASYNC 0 w0 = Some ((err InvalidArgument, None), w0) /\
  err InvalidArgument = - 22 /\
  err NotSupportedYet = - 95.
Proof. repeat split. Qed.

(** Handle 5, which the driver refuses to duplicate, and handle 6, whose
    copy the driver makes with close-on-exec still set. *)
Lemma dup_contract_witness :
  (exists w', vfs_dup 5%nat w0 = Some ((- 24, None), w') /\
              emitted w0 w' = [EvFsOp OpDup 1%nat] /\
              ref_count_at 1%nat w' = ref_count_at 1%nat w0) /\
  (exists w' db',
     vfs_dup 6%nat w0 = Some ((0, Some 7%nat), w') /\
     hbs (dmem w') !! 7%nat = Some db' /\
     fd_flags db' = 0 /\
     Z.land (fd_flags db') FD_CLOEXEC = 0 /\
     emitted w0 w' = [EvFsOp OpDup 1%nat; EvRetain 1%nat] /\
     ref_count_at 1%nat w' = ref_count_at 1%nat w0 + 1).
Proof.
  split.
  - apply (dup_contract 5%nat w0 (mk_fs_handle_base 1%nat 0%nat 0 7)
             (mk_filesystem 1 0%nat 7) (- 24) None
             (mk_drv_mem 7%nat handles));
      [discriminate | reflexivity | reflexivity | reflexivity | discriminate].
  - apply (dup_contract 6%nat w0 (mk_fs_handle_base 1%nat 0%nat 1 3)
             (mk_filesystem 1 0%nat 7) 0 (Some 7%nat)
             (mk_drv_mem 8%nat
                (<[7%nat := mk_fs_handle_base 1%nat 0%nat 1 3]> handles)))
      with (db := mk_fs_handle_base 1%nat 0%nat 1 3)
           (hb' := mk_fs_handle_base 1%nat 0%nat 1 3);
      try reflexivity; discriminate.
Defined.

(** A [whence] of 7, and a handle without [seek]. *)
Lemma seek_rejections_witness :
  vfs_seek 2%nat 5 7 w0 = Some (err InvalidArgument, w0) /\
  vfs_seek 3%nat 5 SEEK_CUR w0 = Some (err NotSeekable, w0).
Proof.
  split.
  - apply (seek_rejections 2%nat 5 7 w0); [reflexivity | discriminate |].
    repeat split; discriminate.
  - apply (seek_rejections 3%nat 5 SEEK_CUR w0)
      with (hb := mk_fs_handle_base 1%nat 2%nat 0 2);
      [reflexivity | discriminate | right; left; reflexivity
       | reflexivity | reflexivity].
Defined.

(** An open with [O_CLOEXEC | O_RDWR]. *)
Lemma open_stamps_flags_witness :
  exists h hb,
    vfs_open "/a" (Z.lor O_CLOEXEC O_RDWR) 0 w0
      = Some ((0, Some h), w_open_cloexec) /\
    hbs (dmem w_open_cloexec) !! h = Some hb /\
    fl_flags hb = Z.lor O_CLOEXEC O_RDWR /\
    Z.land (fd_flags hb) FD_CLOEXEC = FD_CLOEXEC.
Proof.
  assert (E : vfs_open "/a" (Z.lor O_CLOEXEC O_RDWR) 0 w0
              = Some ((0, Some 7%nat), w_open_cloexec)) by reflexivity.
  destruct (open_stamps_flags _ _ _ _ _ _ E) as (h & hb & Eh & Hh & Hf & Hc).
  exists h, hb. rewrite <- Eh.
  repeat split; [exact Hh | exact Hf |].
  apply Hc. discriminate.
Defined.

(** Reading a write-only handle, writing a read-only one, and reading
    handle 6, which has both [O_WRONLY] and [O_RDWR] set. *)
Lemma read_write_bad_descriptor_witness :
  rejected (vfs_read 2%nat 0%nat 10 w0) (err BadDescriptor) w0 /\
  rejected (vfs_write 1%nat 0%nat 10 w0) (err BadDescriptor) w0 /\
  ~ rejected (vfs_read 6%nat 0%nat 10 w0) (err BadDescriptor) w0.
Proof.
  pose proof (read_write_bad_descriptor 2%nat 0%nat 10 w0
                (mk_fs_handle_base 1%nat 0%nat 0 1)
                eq_refl ltac:(discriminate) eq_refl) as (R2 & _).
  pose proof (read_write_bad_descriptor 1%nat 0%nat 10 w0
                (mk_fs_handle_base 1%nat 0%nat 0 0)
                eq_refl ltac:(discriminate) eq_refl) as (_ & W1).
  pose proof (read_write_bad_descriptor 6%nat 0%nat 10 w0
                (mk_fs_handle_base 1%nat 0%nat 1 3)
                eq_refl ltac:(discriminate) eq_refl) as (R6 & _).
  split; [apply R2; right; split; [discriminate | reflexivity] |].
  split; [apply W1; right; split; reflexivity |].
  intros H. apply R6 in H as [H | (_ & H)]; discriminate H.
Defined.

(** What a driver answers is passed through as it is, [-EBADF] included:
    handle 4 is readable and its driver's [read] returns [-EBADF] itself,
    under the handle lock. *)
Lemma driver_ebadf_passes_through :
  exists w',
    vfs_read 4%nat 0%nat 10 w0 = Some (err BadDescriptor, w') /\
    emitted w0 w' = [EvShLock 4%nat; EvFileOp OpRead 4%nat; EvShUnlock 4%nat].
Proof. eexists. split; reflexivity. Qed.

(** The sixth identifier handed out after boot. *)
Lemma device_ids_count_up_witness :
  Z.of_nat 5 < 2 ^ 32 /\
  (exists w', nth_device_id 5 (boot mounts (dmem w0))
              = Some (5, w')).
Proof.
  split; [reflexivity |].
  apply (device_ids_count_up mounts (dmem w0) 5).
  reflexivity.
Defined.

(** C9 as stated fails: call number [2^32] returns 0, not [2^32], the
    identifier call number 0 already returned. *)
Lemma device_id_wraps_around :
  (exists w', nth_device_id 0 (boot mounts (dmem w0))
              = Some (0, w')) /\
  (exists w', nth_device_id (Z.to_nat (2 ^ 32))
                (boot mounts (dmem w0))
              = Some (0, w')) /\
  Z.of_nat (Z.to_nat (2 ^ 32)) <> 0.
Proof.
  split; [| split].
  - eexists. reflexivity.
  - eexists. rewrite nth_device_id_from by (cbn; lia).
    rewrite Z2Nat.id by lia. reflexivity.
  - rewrite Z2Nat.id by lia. discriminate.
Qed.

(** * More runs *)

Lemma open_tmpfile_is_not_supported_witness :
  Z.land 0x410002 O_TMPFILE = O_TMPFILE /\
  vfs_open "/a" 0x410002 0 w0 = Some ((- EOPNOTSUPP, None), w0).
Proof.
  split; [reflexivity |].
  apply (open_tmpfile_is_not_supported "/a" 0x410002 0 w0); reflexivity.
Defined.

Lemma no_mount_is_not_found_witness :
  exists w',
    run_path_op (K := Unmounted.kernel) DoUnlink "/a" Unmounted.w0
      = Some (- ENOENT, w') /\
    emitted Unmounted.w0 w' = [EvLookup "/a"] /\
    fss w' = fss Unmounted.w0 /\
    dmem w' = dmem Unmounted.w0.
Proof.
  apply (no_mount_is_not_found (K := Unmounted.kernel) DoUnlink "/a"
           Unmounted.w0); reflexivity || exact I.
Defined.

Lemma dir_op_status_witness :
  (exists w',
     run_path_op DoUnlink "/denied" w0 = Some (- 13, w') /\
     ref_count_at 1%nat w' = ref_count_at 1%nat w0) /\
  (exists w',
     run_path_op (DoMkdir 0) "/missing" w0 = Some (- 2, w') /\
     ref_count_at 1%nat w' = ref_count_at 1%nat w0).
Proof.
  split.
  - destruct (dir_op_status DoUnlink "/denied" w0 1%nat "/denied"
                (mk_filesystem 1 0%nat 7) toy_dirop 0 (1%nat, "/denied"%string)
                (dmem w0))
      as (w' & Hrun & _ & _ & Hrc); try reflexivity; [discriminate |].
    exists w'. split; [exact Hrun | exact Hrc].
  - destruct (dir_op_status (DoMkdir 0) "/missing" w0 1%nat "/missing"
                (mk_filesystem 1 0%nat 7) toy_dirop (- 2)
                (1%nat, "/missing"%string) (dmem w0))
      as (w' & Hrun & _ & _ & Hrc); try reflexivity; [discriminate |].
    exists w'. split; [exact Hrun | exact Hrc].
Defined.

Lemma dir_op_early_return_keeps_the_reference_witness :
  exists w',
    run_path_op DoRmdir "/ro/a" w0 = Some (- EROFS, w') /\
    emitted w0 w' = [EvLookup "/ro/a"; EvRetain 2%nat] /\
    ref_count_at 2%nat w' = ref_count_at 2%nat w0 + 1.
Proof.
  apply (dir_op_early_return_keeps_the_reference DoRmdir "/ro/a" w0 2%nat
           "/a" (mk_filesystem 0 0%nat 1)); try reflexivity.
  left. reflexivity.
Defined.


Lemma handle_ops_keep_lock_discipline_witness :
  run_handle_op (DoWrite 0%nat 10) 2%nat w0 = Some (10, w_write2) /\
  handle_lock_discipline None (emitted w0 w_write2) = true /\
  handle_lock_discipline None
    [EvShLock 2%nat; EvFileOp OpWrite 2%nat; EvShUnlock 2%nat] = false.
Proof.
  split; [reflexivity |].
  destruct (handle_ops_keep_lock_discipline (DoWrite 0%nat 10) 2%nat w0
              w_write2 10) as (D & _); [reflexivity |].
  split; [exact D | reflexivity].
Defined.

Lemma ioctl_fcntl_dispatch_witness :
  (exists w', vfs_ioctl 3%nat 21505 0%nat w0 = Some (- ENOTTY, w')) /\
  (exists w', vfs_fcntl 3%nat 1 0 w0 = Some (- EINVAL, w')) /\
  (exists w', vfs_fcntl 1%nat 1 0 w0 = Some (0, w') /\
              emitted w0 w'
                = [EvExLock 1%nat; EvFileOp OpFcntl 1%nat; EvExUnlock 1%nat]).
Proof.
  destruct (ioctl_fcntl_dispatch 3%nat w0 (mk_fs_handle_base 1%nat 2%nat 0 2))
    as (I3 & F3); [reflexivity | reflexivity |].
  destruct (ioctl_fcntl_dispatch 1%nat w0 (mk_fs_handle_base 1%nat 0%nat 0 0))
    as (_ & F1); [reflexivity | reflexivity |].
  split; [| split].
  - destruct (I3 ltac:(discriminate) 21505 0%nat) as (w' & H & _).
    exists w'. exact H.
  - destruct (F3 1 0) as (w' & H & _). exists w'. exact H.
  - destruct (F1 1 0) as (w' & H & E). exists w'. split; [exact H | exact E].
Defined.

Lemma close_releases_once_witness :
  (exists w',
     vfs_close 1%nat w0 = Some (tt, w') /\
     emitted w0 w'
       = [EvUnmap 1%nat; EvFsOp OpClose 1%nat; EvRelease 1%nat] /\
     ref_count_at 1%nat w' = 6) /\
  vfs_close 1%nat (with_fss w0 (<[1%nat := mk_filesystem 1 0%nat 1]> mounts))
    = None.
Proof.
  split.
  - destruct (close_releases_once 1%nat w0 (mk_fs_handle_base 1%nat 0%nat 0 0)
                (mk_filesystem 1 0%nat 7)) as (C & _);
      [discriminate | reflexivity | reflexivity |].
    destruct (C ltac:(reflexivity)) as (w' & H & E & _ & R).
    exists w'. split; [exact H |]. split; [exact E | exact R].
  - apply (close_releases_once 1%nat
             (with_fss w0 (<[1%nat := mk_filesystem 1 0%nat 1]> mounts))
             (mk_fs_handle_base 1%nat 0%nat 0 0) (mk_filesystem 1 0%nat 1));
      [discriminate | reflexivity | reflexivity | discriminate].
Defined.

Lemma open_then_close_conserves_references_witness :
  vfs_open "/a" 0 0 w0 = Some ((0, Some 7%nat), w_open) /\
  exists w2,
    vfs_close 7%nat w_open = Some (tt, w2) /\
    ref_count_at 1%nat w2 = ref_count_at 1%nat w0 /\
    retains 1%nat (emitted w0 w2) = 1%nat /\
    releases 1%nat (emitted w0 w2) = 1%nat.
Proof.
  split; [reflexivity |].
  apply (open_then_close_conserves_references "/a" 0 0 w0 w_open 7%nat 1%nat
           "/a" (mk_fs_handle_base 1%nat 0%nat 0 0));
    try reflexivity. discriminate.
Defined.

Lemma dup_then_close_conserves_references_witness :
  vfs_dup 6%nat w0 = Some ((0, Some 7%nat), w_dup6) /\
  exists w2,
    vfs_close 7%nat w_dup6 = Some (tt, w2) /\
    ref_count_at 1%nat w2 = ref_count_at 1%nat w0 /\
    retains 1%nat (emitted w0 w2) = 1%nat /\
    releases 1%nat (emitted w0 w2) = 1%nat.
Proof.
  split; [reflexivity |].
  apply (dup_then_close_conserves_references 6%nat 7%nat w0 w_dup6
           (mk_fs_handle_base 1%nat 0%nat 1 3)
           (mk_fs_handle_base 1%nat 0%nat 0 3)); reflexivity.
Defined.

Lemma dup_changes_only_the_duplicate_witness :
  vfs_dup 6%nat w0 = Some ((0, Some 7%nat), w_dup6) /\
  hbs (dmem w_dup6) !! 6%nat = Some (mk_fs_handle_base 1%nat 0%nat 1 3) /\
  hbs (dmem w_dup6) !! 7%nat = Some (mk_fs_handle_base 1%nat 0%nat 0 3).
Proof.
  split; [reflexivity |].
  destruct (dup_changes_only_the_duplicate 6%nat 7%nat w0 w_dup6
              (mk_fs_handle_base 1%nat 0%nat 1 3) (mk_filesystem 1 0%nat 7))
    as (Hothers & (db & Hdb & Hd) & _);
    [reflexivity | reflexivity | reflexivity |].
  split.
  - etransitivity; [apply (Hothers 6%nat); discriminate | reflexivity].
  - etransitivity; [exact Hd |].
    assert (E : Some db = Some (mk_fs_handle_base 1%nat 0%nat 1 3))
      by (rewrite <- Hdb; reflexivity).
    injection E as ->. reflexivity.
Defined.

Lemma open_changes_only_the_new_handle_witness :
  vfs_open "/a" (Z.lor O_CLOEXEC O_RDWR) 0 w0
    = Some ((0, Some 7%nat), w_open_cloexec) /\
  exists hb0 : fs_handle_base,
    hbs (dmem w_open_cloexec) !! 7%nat
      = Some (mk_fs_handle_base (fs hb0) (fops hb0)
                (Z.lor (fd_flags hb0) FD_CLOEXEC) (Z.lor O_CLOEXEC O_RDWR)).
Proof.
  split; [reflexivity |].
  destruct (open_changes_only_the_new_handle "/a" (Z.lor O_CLOEXEC O_RDWR) 0
              w0 w_open_cloexec 7%nat 1%nat "/a")
    as (x & p & m1 & m & hb0 & _ & _ & _ & _ & Hnew & _);
    [reflexivity | reflexivity |].
  exists hb0. exact Hnew.
Defined.

Lemma device_ids_repeat_only_after_a_full_turn_witness :
  exists a b wa wb,
    nth_device_id 3 w0 = Some (a, wa) /\
    nth_device_id 8 w0 = Some (b, wb) /\
    a <> b.
Proof.
  destruct (device_ids_repeat_only_after_a_full_turn w0 3 8)
    as (a & b & wa & wb & Ha & Hb & _ & _ & Hiff);
    [cbn; lia | lia |].
  exists a, b, wa, wb. split; [exact Ha |]. split; [exact Hb |].
  intros E. apply Hiff in E. discriminate E.
Defined.

Lemma open_failure_restores_the_count_witness :
  (exists w',
     vfs_open "/missing" 0 0 w0 = Some ((- 2, None), w') /\
     ref_count_at 1%nat w' = ref_count_at 1%nat w0) /\
  (exists w',
     vfs_open "/denied" 0 0 w0 = Some ((- 13, None), w') /\
     ref_count_at 1%nat w' = ref_count_at 1%nat w0).
Proof.
  split.
  - destruct (open_failure_restores_the_count "/missing" 0 0 w0 1%nat
                "/missing" (mk_filesystem 1 0%nat 7) (- 2)
                (1%nat, "/missing"%string) (dmem w0)) as (R & _);
      try reflexivity; [split; [reflexivity | discriminate] |].
    destruct (R ltac:(discriminate)) as (w' & H & _ & C).
    exists w'. split; [exact H | exact C].
  - destruct (open_failure_restores_the_count "/denied" 0 0 w0 1%nat
                "/denied" (mk_filesystem 1 0%nat 7) 0
                (1%nat, "/denied"%string) (dmem w0)) as (_ & D);
      try reflexivity; [split; [reflexivity | discriminate] |].
    destruct (D eq_refl (- 13) None (dmem w0))
      as (w' & H & _ & _ & C); [reflexivity | discriminate |].
    exists w'. split; [exact H | exact C].
Defined.

Lemma make_color_packs_two_colours_witness :
  Z.land (make_color (vga_color_value COLOR_WHITE)
            (vga_color_value COLOR_BLUE)) 15 = 15 /\
  Z.shiftr (make_color (vga_color_value COLOR_WHITE)
              (vga_color_value COLOR_BLUE)) 4 = 1.
Proof.
  destruct (make_color_packs_two_colours (vga_color_value COLOR_WHITE)
              (vga_color_value COLOR_BLUE)) as (L & H & _);
    [cbn; lia | cbn; lia |].
  split; [exact L | exact H].
Defined.

Lemma make_vgaentry_packs_char_and_colour_witness :
  Z.land (make_vgaentry 65 31) 255 = 65 /\
  Z.shiftr (make_vgaentry 65 31) 8 = 31.
Proof.
  destruct (make_vgaentry_packs_char_and_colour 65 31) as (L & H & _);
    [lia | lia |].
  split; [exact L | exact H].
Defined.

Lemma make_vgaentry_negative_char_floods_the_colour_witness :
  Z.land (make_vgaentry (- 128) 7) 255 = 128 /\
  Z.shiftr (make_vgaentry (- 128) 7) 8 = 255.
Proof.
  apply (make_vgaentry_negative_char_floods_the_colour (- 128) 7); lia.
Defined.

Lemma get_flat_ptr_aliases_witness :
  get_flat_ptr (mk_far_ptr 0 47105) = get_flat_ptr (mk_far_ptr 16 47104).
Proof.
  apply (get_flat_ptr_aliases (mk_far_ptr 16 47104));
    [unfold far_ptr_ok; cbn; lia | cbn; lia | cbn; lia].
Defined.

Import Printk.

Lemma plain_text_is_printed_verbatim_witness :
  vprintk (conv := tagged) "Hello" [] = Some "[kernel] Hello"%string /\
  vprintk (conv := tagged) ("id: " ++ "%d") [VA32 5]
    = Some "[kernel] id: 5"%string.
Proof.
  destruct (plain_text_is_printed_verbatim (conv := tagged) "Hello" "" [])
    as (A & _); [reflexivity |].
  destruct (plain_text_is_printed_verbatim (conv := tagged) "id: " "%d"
              [VA32 5]) as (_ & B); [reflexivity |].
  split; [exact A | exact B].
Defined.

Lemma percent_is_not_escaped_witness :
  vprintk (conv := tagged) ("100" ++ "%") [] = None /\
  vprintk (conv := tagged) ("100" ++ "%%") [] = None /\
  vprintk (conv := tagged) ("" ++ "%%" ++ "d") [VA32 5]
    = Some "[kernel] 5"%string.
Proof.
  destruct (percent_is_not_escaped (conv := tagged) "100" []) as (A & B & _);
    [reflexivity |].
  destruct (percent_is_not_escaped (conv := tagged) "" [VA32 5])
    as (_ & _ & C); [reflexivity |].
  split; [exact A |]. split; [exact B |].
  rewrite (C "d"). reflexivity.
Defined.

Lemma arguments_left_over_are_ignored_witness :
  vprintk (conv := tagged) "%s!" ([VAStr "ok"] ++ [VA32 1; VA64 2])
    = Some "[kernel] ok!"%string.
Proof.
  apply (arguments_left_over_are_ignored (conv := tagged) "%s!" [VAStr "ok"]).
  reflexivity.
Defined.

Lemma unsupported_directives_print_no_value_witness :
  vprintk (conv := tagged) ("a" ++ "%q.") [] = Some "[kernel] a%q."%string /\
  vprintk (conv := tagged) ("a" ++ "%lu.") [VA32 1] = Some "[kernel] a."%string /\
  vprintk (conv := tagged) ("a" ++ "%llx.") [VA64 1]
    = Some "[kernel] a."%string.
Proof.
  destruct (unsupported_directives_print_no_value (conv := tagged) "a" "."
              "q" []) as (A & _ & _); [reflexivity |].
  destruct (unsupported_directives_print_no_value (conv := tagged) "a" "."
              "u" [VA32 1]) as (_ & B & _); [reflexivity |].
  destruct (unsupported_directives_print_no_value (conv := tagged) "a" "."
              "x" [VA64 1]) as (_ & _ & C); [reflexivity |].
  split; [etransitivity; [apply A; reflexivity | reflexivity] |].
  split; [etransitivity; [apply B; reflexivity | reflexivity] |].
  etransitivity; [apply C; reflexivity | reflexivity].
Defined.
